(** * Verification of the tool-calling loop of [backend/ai_generator.py]

    A shallow embedding of [AIGenerator] (the orchestration loop between
    the LLM endpoint and the tool manager), of the tool registry it
    talks to and of the two HTTP handlers of [tests/test_api.py],
    followed by the properties the design document states about them
    and by further properties read off the code.

    Modelling choices.
    - The LLM endpoint and the tools are external and stateful: both are
      functions over an abstract [World], threaded through every call.
    - Python exceptions are values of [Exception] (what the loop's
      [except Exception] clause catches); a call either returns or
      raises, see [outcome].
    - Every external call is recorded, with its arguments and its
      outcome, in a trace of [event]s.  The trace is how statements such
      as "exactly one endpoint call occurs" are expressed.
    - [messages.copy()] gives every endpoint call a list of its own and
      no message dict is written after it is built, so messages are
      plain immutable values. *)

From Stdlib Require Import List String Ascii Arith ZArith Bool Lia.
From Equations Require Import Equations.
From Equations.Prop Require Import Logic.
Import ListNotations.
Open Scope string_scope.
Open Scope list_scope.

(** ** Data model *)

(** A Python dict with string keys, in insertion order. *)
Definition dict := list (string * string).

(** Content blocks of an endpoint response.  A text block carries a
    [text] attribute; a tool-use block has [type == "tool_use"] and an
    [id], a [name] and an [input]; any other block (a thinking block)
    has neither. *)
Inductive content_block : Type :=
| TextBlock (text : string)
| ToolUseBlock (id : string) (name : string) (input : dict)
| ThinkingBlock (thinking : string).

Record response : Type := mkResponse {
  resp_content : list content_block;
  stop_reason : string
}.

(** A tool-result dict; [is_error] is [None] when the key is absent. *)
Record tool_result : Type := mkToolResult {
  tr_type : string;
  tool_use_id : string;
  tr_content : string;
  is_error : option bool
}.

(** The ["content"] of a message: the raw query, the content blocks of
    an assistant response, or a list of tool results. *)
Inductive message_content : Type :=
| QueryText (s : string)
| Blocks (bs : list content_block)
| ToolResults (rs : list tool_result).

Record message : Type := mkMessage {
  role : string;
  msg_content : message_content
}.

(** The keyword arguments of [client.messages.create]; [tools] and
    [tool_choice] are [None] when the key is absent. *)
Record api_params : Type := mkParams {
  p_model : string;
  p_temperature : nat;
  p_max_tokens : nat;
  p_messages : list message;
  p_system : string;
  p_tools : option (list dict);
  p_tool_choice : option dict
}.

Record Exception : Type := mkException { exn_str : string }.

Inductive outcome (A : Type) : Type :=
| Returned (a : A)
| Raised (e : Exception).
Arguments Returned {A} a.
Arguments Raised {A} e.

Inductive event : Type :=
| CreateCall (p : api_params) (r : outcome response)
| ExecuteCall (name : string) (input : dict) (r : outcome string).

Definition trace := list event.

Fixpoint endpoint_calls (t : trace) : list (api_params * outcome response) :=
  match t with
  | [] => []
  | CreateCall p r :: t' => (p, r) :: endpoint_calls t'
  | ExecuteCall _ _ _ :: t' => endpoint_calls t'
  end.

Fixpoint tool_calls (t : trace) : list (string * dict * outcome string) :=
  match t with
  | [] => []
  | CreateCall _ _ :: t' => tool_calls t'
  | ExecuteCall n i r :: t' => (n, i, r) :: tool_calls t'
  end.

(** For every tool execution of the trace, the number of endpoint calls
    made before it: [k] for an execution of round [k]. *)
Fixpoint execution_rounds (calls_before : nat) (t : trace) : list nat :=
  match t with
  | [] => []
  | CreateCall _ _ :: t' => execution_rounds (S calls_before) t'
  | ExecuteCall _ _ _ :: t' => calls_before :: execution_rounds calls_before t'
  end.

(** The tool-use blocks of a response, in order. *)
Fixpoint tool_use_blocks (bs : list content_block) : list (string * string * dict) :=
  match bs with
  | [] => []
  | ToolUseBlock i n a :: bs' => (i, n, a) :: tool_use_blocks bs'
  | _ :: bs' => tool_use_blocks bs'
  end.

(** Truth value of an [Optional[List]]. *)
Definition truthy_list {A : Type} (l : option (list A)) : bool :=
  match l with
  | Some (_ :: _) => true
  | _ => false
  end.

(** Truth value of an [Optional[str]]. *)
Definition truthy_str (s : option string) : bool :=
  match s with
  | Some (String _ _) => true
  | _ => false
  end.

(** ** The generator *)

Module AIGenerator.

Definition MAX_TOOL_ROUNDS : nat := 2.

Section Generator.

(** State of everything outside the generator. *)
Variable World : Type.

(** [tool_manager.execute_tool(name, **input)]. *)
Record ToolManager : Type := mkToolManager {
  execute_tool : string -> dict -> World -> outcome string * World
}.

(** [self]: the client's [messages.create] and the model name.  The
    text of the class constant [SYSTEM_PROMPT] plays no part in the
    control flow; it is a field too, so that every statement holds for
    any prompt text. *)
Record t : Type := mkGenerator {
  client_create : api_params -> World -> outcome response * World;
  model : string;
  SYSTEM_PROMPT : string
}.

(** A computation: from a world to an outcome, the next world and the
    calls made. *)
Definition M (A : Type) : Type := World -> outcome A * World * trace.

Definition ret {A : Type} (a : A) : M A := fun w => (Returned a, w, []).

Definition bind {A B : Type} (m : M A) (f : A -> M B) : M B :=
  fun w =>
    match m w with
    | (Returned a, w1, t1) =>
        let '(r, w2, t2) := f a w1 in (r, w2, t1 ++ t2)
    | (Raised e, w1, t1) => (Raised e, w1, t1)
    end.

Notation "x <- m ;; k" := (bind m (fun x => k))
  (at level 61, m at next level, right associativity).
Notation "' pat <- m ;; k" := (bind m (fun x => match x with pat => k end))
  (at level 61, pat pattern, m at next level, right associativity).

(** [self.client.messages.create( **params )], outside any handler. *)
Definition create (self : t) (p : api_params) : M response :=
  fun w => let '(r, w1) := client_create self p w in (r, w1, [CreateCall p r]).

(** [try: tool_manager.execute_tool(...) except Exception as e: ...]:
    the outcome of the call is handed to the loop as a value. *)
Definition try_execute_tool (tm : ToolManager) (name : string) (input : dict)
  : M (outcome string) :=
  fun w => let '(r, w1) := execute_tool tm name input w in
           (Returned r, w1, [ExecuteCall name input r]).

Definition base_params (self : t) (messages : list message) (system : string)
  : api_params :=
  mkParams (model self) 0 800 messages system None None.

Definition with_tools (p : api_params) (tools : list dict) : api_params :=
  mkParams (p_model p) (p_temperature p) (p_max_tokens p) (p_messages p)
           (p_system p) (Some tools) (Some [("type", "auto")]).

(** [_extract_text_response], lines 207-220. *)
Fixpoint _extract_text_response_blocks (bs : list content_block) : string :=
  match bs with
  | [] => ""
  | TextBlock text :: _ => text
  | _ :: bs' => _extract_text_response_blocks bs'
  end.

Definition _extract_text_response (r : response) : string :=
  _extract_text_response_blocks (resp_content r).

(** The [for content_block in response.content] loop, lines 148-168,
    with its two accumulators. *)
Definition result_entry (id : string) (r : outcome string) : tool_result :=
  match r with
  | Returned tool_result_text =>
      mkToolResult "tool_result" id tool_result_text None
  | Raised e =>
      mkToolResult "tool_result" id
                   (String.append "Error executing tool: " (exn_str e))
                   (Some true)
  end.

Definition raised {A : Type} (r : outcome A) : bool :=
  match r with Raised _ => true | Returned _ => false end.

Fixpoint execute_tool_calls (tm : ToolManager) (blocks : list content_block)
    (tool_results : list tool_result) (has_error : bool)
  : M (list tool_result * bool) :=
  match blocks with
  | [] => ret (tool_results, has_error)
  | ToolUseBlock id name input :: rest =>
      r <- try_execute_tool tm name input ;;
      execute_tool_calls tm rest (tool_results ++ [result_entry id r])
                         (raised r || has_error)
  | _ :: rest => execute_tool_calls tm rest tool_results has_error
  end.

(** Line 175. *)
Definition allow_more_tools (depth : nat) (has_error : bool) : bool :=
  Nat.ltb depth MAX_TOOL_ROUNDS && negb has_error.

(** Lines 138-190 of [_continue_tool_loop]: one round, up to and
    including the next endpoint call.  Returns the next response, the
    message list sent with it and the [allow_more_tools] flag. *)
Definition tool_round (self : t) (resp : response) (messages : list message)
    (system : string) (tools : list dict) (tm : ToolManager) (depth : nat)
  : M (response * list message * bool) :=
  let new_messages := messages ++ [mkMessage "assistant" (Blocks (resp_content resp))] in
  '(tool_results, has_error) <- execute_tool_calls tm (resp_content resp) [] false ;;
  let new_messages :=
    match tool_results with
    | [] => new_messages
    | _ :: _ => new_messages ++ [mkMessage "user" (ToolResults tool_results)]
    end in
  let allow := allow_more_tools depth has_error in
  let next_params := base_params self new_messages system in
  let next_params := if allow then with_tools next_params tools else next_params in
  next_response <- create self next_params ;;
  ret (next_response, new_messages, allow).

Definition after (t1 : trace) {A : Type} (x : outcome A * World * trace)
  : outcome A * World * trace :=
  let '(r, w, t2) := x in (r, w, t1 ++ t2).

(** [_continue_tool_loop], lines 117-205.  The recursive call is made
    only when [depth < MAX_TOOL_ROUNDS], with [depth + 1]. *)
Equations? _continue_tool_loop (self : t) (resp : response)
    (messages : list message) (system : string) (tools : list dict)
    (tm : ToolManager) (depth : nat) (w : World)
  : outcome string * World * trace
  by wf (MAX_TOOL_ROUNDS - depth) lt :=
_continue_tool_loop self resp messages system tools tm depth w
  with inspect (tool_round self resp messages system tools tm depth w) := {
  | exist _ (Raised e, w1, t1) _ := (Raised e, w1, t1)
  | exist _ (Returned (next_response, new_messages, allow), w1, t1) Hround
      with inspect (String.eqb (stop_reason next_response) "tool_use" && allow) := {
      | exist _ true Hmore :=
          after t1 (_continue_tool_loop self next_response new_messages
                                        system tools tm (depth + 1) w1)
      | exist _ false _ :=
          (Returned (_extract_text_response next_response), w1, t1) } }.
Proof.
  apply andb_prop in Hmore. destruct Hmore as [_ Hallow]. subst allow.
  unfold tool_round, bind in Hround.
  destruct (execute_tool_calls tm (resp_content resp) [] false w)
    as [[[[rs he]|e0] w0] t0]; [|discriminate].
  destruct (create self _ w0) as [[[nr|e1] w2] t2]; [|discriminate].
  cbn in Hround. injection Hround as _ _ Ha _ _.
  unfold allow_more_tools in Ha.
  apply andb_prop in Ha. destruct Ha as [Hd _].
  apply Nat.ltb_lt in Hd. unfold MAX_TOOL_ROUNDS in Hd.
  destruct depth as [|[|d]]; cbn; lia.
Qed.

(** [generate_response], lines 58-115. *)
Definition generate_response (self : t) (query : string)
    (conversation_history : option string) (tools : option (list dict))
    (tool_manager : option ToolManager) : M string :=
  let system_content :=
    match conversation_history with
    | Some (String c h) =>
        String.append (SYSTEM_PROMPT self)
          (String "010" (String "010"
            (String.append "Previous conversation:"
                           (String "010" (String c h)))))
    | _ => SYSTEM_PROMPT self
    end in
  let messages := [mkMessage "user" (QueryText query)] in
  let api_params := base_params self messages system_content in
  let api_params :=
    match tools with
    | Some (d :: ds) => with_tools api_params (d :: ds)
    | _ => api_params
    end in
  resp <- create self api_params ;;
  match String.eqb (stop_reason resp) "tool_use", tool_manager, tools with
  | true, Some tm, Some (d :: ds) =>
      _continue_tool_loop self resp messages system_content (d :: ds) tm 1
  | _, _, _ => ret (_extract_text_response resp)
  end.

End Generator.

Arguments execute_tool {World} _ _ _ _.
Arguments client_create {World} _ _ _.
Arguments model {World} _.
Arguments SYSTEM_PROMPT {World} _.
Arguments ret {World A} _ _.
Arguments bind {World A B} _ _ _.
Arguments create {World} _ _ _.
Arguments try_execute_tool {World} _ _ _ _.
Arguments base_params {World} _ _ _.
Arguments execute_tool_calls {World} _ _ _ _ _.
Arguments tool_round {World} _ _ _ _ _ _ _ _.
Arguments after {World} _ {A} _.
Arguments _continue_tool_loop {World} _ _ _ _ _ _ _ _.
Arguments generate_response {World} _ _ _ _ _ _.

End AIGenerator.

(** ** A scripted world

    The endpoint and the tools of the test-suite: each call pops the
    next outcome of a script ([Mock.side_effect]); an exhausted script
    raises [StopIteration]. *)

Module Scripted.

Definition World : Type := list (outcome response) * list (outcome string).

Definition StopIteration : Exception := mkException "StopIteration".

Definition scripted_create (p : api_params) (w : World)
  : outcome response * World :=
  match fst w with
  | [] => (Raised StopIteration, w)
  | r :: rs => (r, (rs, snd w))
  end.

Definition scripted_execute (name : string) (input : dict) (w : World)
  : outcome string * World :=
  match snd w with
  | [] => (Raised StopIteration, w)
  | r :: rs => (r, (fst w, rs))
  end.

Definition generator : AIGenerator.t World :=
  AIGenerator.mkGenerator World scripted_create "test-model" "PROMPT".

Definition tool_manager : AIGenerator.ToolManager World :=
  AIGenerator.mkToolManager World scripted_execute.

Definition search_tools : list dict := [[("name", "search_course_content")]].

Definition tool_use (id : string) (q : string) : response :=
  mkResponse [ToolUseBlock id "search_course_content" [("query", q)]] "tool_use".

Definition text_answer (s : string) : response :=
  mkResponse [TextBlock s] "end_turn".

Definition run (w : World) : outcome string * World * trace :=
  AIGenerator.generate_response generator "Q" None (Some search_tools)
    (Some tool_manager) w.

(** A first response that asks for tools without any tool-use block,
    then an answer. *)
Definition announced_only : World :=
  ([Returned (mkResponse [TextBlock "Let me look"] "tool_use");
    Returned (text_answer "Final")], []).

(** Two rounds, the first of them without any tool-use block. *)
Definition empty_first_round : World :=
  ([Returned (mkResponse [] "tool_use");
    Returned (tool_use "t2" "b");
    Returned (text_answer "Done")],
   [Returned "R"]).

(** One round whose only execution raises, then an answer
    ([test_tool_error_prevents_further_rounds]). *)
Definition failing_tool : World :=
  ([Returned (tool_use "tool_1" "test");
    Returned (text_answer "Handled the error gracefully.")],
   [Raised (mkException "Tool failed!")]).

(** Two rounds and a final answer ([test_messages_accumulate_correctly]). *)
Definition two_rounds : World :=
  ([Returned (tool_use "t1" "a");
    Returned (tool_use "t2" "b");
    Returned (text_answer "Final")],
   [Returned "Result 1"; Returned "Result 2"]).

End Scripted.


(** ** The tool registry *)

Module ToolRegistry.

Record Citation : Type := mkCitation {
  display_text : string;
  link : option string
}.

(** Modelled from the spec: the tool contract of section 4.1
    ([search_tools.py] is not among the sources).  A tool has a name, a
    schema, an [execute] that returns a text together with the citations
    it produced or raises on a genuine failure, and a retained citation
    list. *)
Record Tool : Type := mkTool {
  tool_name : string;
  schema : dict;
  execute : dict -> outcome (string * list Citation);
  retained : list Citation
}.

(** Modelled from the spec: the registry of section 4.2, the registered
    tools in registration order. *)
Definition Registry : Type := list Tool.

Fixpoint lookup (name : string) (reg : Registry) : option Tool :=
  match reg with
  | [] => None
  | t :: rest => if String.eqb (tool_name t) name then Some t else lookup name rest
  end.

(** Modelled from the spec: [register(tool)]; a second tool under an
    existing name replaces the first. *)
Fixpoint register (tool : Tool) (reg : Registry) : Registry :=
  match reg with
  | [] => [tool]
  | t :: rest =>
      if String.eqb (tool_name t) (tool_name tool) then tool :: rest
      else t :: register tool rest
  end.

(** Modelled from the spec: [definitions()], the schemas in registration
    order. *)
Definition definitions (reg : Registry) : list dict := map schema reg.

(** An execution overwrites the tool's retained citations. *)
Fixpoint retain (name : string) (cs : list Citation) (reg : Registry) : Registry :=
  match reg with
  | [] => []
  | t :: rest =>
      if String.eqb (tool_name t) name
      then mkTool (tool_name t) (schema t) (execute t) cs :: rest
      else t :: retain name cs rest
  end.

Definition not_found_message (name : string) : string :=
  String.append "tool '" (String.append name "' not found").

(** Modelled from the spec: [dispatch(name, args) -> text].  An
    unregistered name gives a textual error message, not a fault; a
    registered one forwards to the tool's [execute] and returns its text
    verbatim. *)
Definition dispatch (name : string) (args : dict) (reg : Registry)
  : outcome string * Registry :=
  match lookup name reg with
  | None => (Returned (not_found_message name), reg)
  | Some tool =>
      match execute tool args with
      | Returned (text, cs) => (Returned text, retain name cs reg)
      | Raised e => (Raised e, reg)
      end
  end.

(** Modelled from the spec: [drain_citations()] concatenates the
    retained citations of every registered tool, in registration
    order. *)
Definition drain_citations (reg : Registry) : list Citation * Registry :=
  (flat_map retained reg, reg).

(** Modelled from the spec: [reset_citations()] clears every tool's
    retained citation list. *)
Definition reset_citations (reg : Registry) : Registry :=
  map (fun t => mkTool (tool_name t) (schema t) (execute t) []) reg.

(** The registry as the tool manager of the generator: the world is the
    registry itself. *)
Definition as_tool_manager : AIGenerator.ToolManager Registry :=
  AIGenerator.mkToolManager Registry dispatch.

End ToolRegistry.

(** ** The HTTP handlers of [tests/test_api.py]

    [create_test_app] (lines 52-86) builds the two endpoints of the
    application around a RAG system.  The RAG system and its session
    manager are external: functions over an abstract world, as the
    endpoint and the tools above.  Request parsing and the rendering of
    replies are FastAPI's and are not modelled: a handler receives a
    parsed request and either returns a body (status 200) or raises
    [HTTPException]. *)

Module TestApp.

(** The pydantic models, lines 27-49. *)
Record QueryRequest : Type := mkQueryRequest {
  query : string;
  session_id : option string
}.

Record SourceCitation : Type := mkSourceCitation {
  text : string;
  url : option string
}.

Record QueryResponse : Type := mkQueryResponse {
  answer : string;
  sources : list SourceCitation;
  response_session_id : string
}.

Record CourseStats : Type := mkCourseStats {
  total_courses : Z;
  course_titles : list string
}.

(** A source dict as the RAG system returns it: string keys, values
    that are a string or [None]. *)
Definition source_dict : Type := list (string * option string).

(** The analytics dict: string keys, values that are an integer or a
    list of strings. *)
Inductive analytics_value : Type :=
| AInt (n : Z)
| ATitles (titles : list string).

Definition analytics_dict : Type := list (string * analytics_value).

Fixpoint get {V : Type} (key : string) (d : list (string * V)) : option V :=
  match d with
  | [] => None
  | (k, v) :: d' => if String.eqb k key then Some v else get key d'
  end.

(** What a handler gives back: the body of a 200 reply, or the
    [HTTPException] it raised. *)
Inductive reply (A : Type) : Type :=
| Ok (body : A)
| HTTPException (status_code : nat) (detail : string).
Arguments Ok {A} body.
Arguments HTTPException {A} status_code detail.

(** [str(KeyError(key))]: the key between single quotes. *)
Definition KeyError (key : string) : Exception :=
  mkException (String.append "'" (String.append key "'")).

Section App.

Variable World : Type.

(** [mock_rag_system]: [session_manager.create_session()],
    [query(query, session_id)] and [get_course_analytics()]. *)
Record RagSystem : Type := mkRagSystem {
  create_session : World -> outcome string * World;
  rag_query : string -> string -> World
              -> outcome (string * list source_dict) * World;
  get_course_analytics : World -> outcome analytics_dict * World
}.

(** The [ValidationError] pydantic raises for a dict that
    [SourceCitation] refuses and for values [CourseStats] refuses; the
    text of these errors is pydantic's. *)
Variable citation_error : source_dict -> Exception.
Variable stats_error : analytics_value -> analytics_value -> Exception.

Inductive app_call : Type :=
| CreateSession (r : outcome string)
| Query (q : string) (sid : string) (r : outcome (string * list source_dict))
| GetCourseAnalytics (r : outcome analytics_dict).

Definition M (A : Type) : Type := World -> outcome A * World * list app_call.

Definition ret {A : Type} (a : A) : M A := fun w => (Returned a, w, []).

Definition raise {A : Type} (e : Exception) : M A := fun w => (Raised e, w, []).

Definition bind {A B : Type} (m : M A) (f : A -> M B) : M B :=
  fun w =>
    match m w with
    | (Returned a, w1, t1) =>
        let '(r, w2, t2) := f a w1 in (r, w2, t1 ++ t2)
    | (Raised e, w1, t1) => (Raised e, w1, t1)
    end.

Notation "x <- m ;; k" := (bind m (fun x => k))
  (at level 61, m at next level, right associativity).
Notation "' pat <- m ;; k" := (bind m (fun x => match x with pat => k end))
  (at level 61, pat pattern, m at next level, right associativity).

Definition lift {A : Type} (r : outcome A) : M A :=
  fun w => (r, w, []).

(** [try: ... except Exception as e: raise HTTPException(500, str(e))]. *)
Definition or_500 {A : Type} (body : M A) (w : World)
  : reply A * World * list app_call :=
  let '(r, w1, t) := body w in
  (match r with
   | Returned a => Ok a
   | Raised e => HTTPException 500 (exn_str e)
   end, w1, t).

(** [SourceCitation( **s )]: [text] is required and must be a string,
    [url] is a string or [None] and defaults to [None]; other keys are
    ignored. *)
Definition make_citation (s : source_dict) : outcome SourceCitation :=
  match get "text" s with
  | Some (Some t) =>
      Returned (mkSourceCitation t
                  match get "url" s with
                  | Some (Some u) => Some u
                  | _ => None
                  end)
  | _ => Raised (citation_error s)
  end.

(** [[SourceCitation( **s ) for s in sources]]: stops at the first
    dict that is refused. *)
Fixpoint make_citations (srcs : list source_dict) : outcome (list SourceCitation) :=
  match srcs with
  | [] => Returned []
  | s :: srcs' =>
      match make_citation s with
      | Raised e => Raised e
      | Returned c =>
          match make_citations srcs' with
          | Raised e => Raised e
          | Returned cs => Returned (c :: cs)
          end
      end
  end.

(** The three calls to the RAG system. *)
Definition new_session (rag : RagSystem) : M string :=
  fun w => let '(r, w1) := create_session rag w in (r, w1, [CreateSession r]).

Definition ask (rag : RagSystem) (q sid : string)
  : M (string * list source_dict) :=
  fun w => let '(r, w1) := rag_query rag q sid w in (r, w1, [Query q sid r]).

Definition analytics_of (rag : RagSystem) : M analytics_dict :=
  fun w => let '(r, w1) := get_course_analytics rag w in
           (r, w1, [GetCourseAnalytics r]).

(** [query_documents], lines 56-70. *)
Definition query_documents (rag : RagSystem) (request : QueryRequest)
  : World -> reply QueryResponse * World * list app_call :=
  or_500
    (sid <- match session_id request with
            | Some (String c s) => ret (String c s)
            | _ => new_session rag
            end ;;
     '(answer, srcs) <- ask rag (query request) sid ;;
     cs <- lift (make_citations srcs) ;;
     ret (mkQueryResponse answer cs sid)).

(** [analytics[key]]. *)
Definition getitem (key : string) (d : analytics_dict) : outcome analytics_value :=
  match get key d with
  | Some v => Returned v
  | None => Raised (KeyError key)
  end.

(** [CourseStats(total_courses=..., course_titles=...)]: an integer
    and a list of strings. *)
Definition make_stats (total titles : analytics_value) : outcome CourseStats :=
  match total, titles with
  | AInt n, ATitles l => Returned (mkCourseStats n l)
  | _, _ => Raised (stats_error total titles)
  end.

(** [get_course_stats], lines 74-84. *)
Definition get_course_stats (rag : RagSystem)
  : World -> reply CourseStats * World * list app_call :=
  or_500
    (analytics <- analytics_of rag ;;
     total <- lift (getitem "total_courses" analytics) ;;
     titles <- lift (getitem "course_titles" analytics) ;;
     lift (make_stats total titles)).

End App.

Arguments create_session {World} _ _.
Arguments rag_query {World} _ _ _ _.
Arguments get_course_analytics {World} _ _.
Arguments new_session {World} _ _.
Arguments ask {World} _ _ _ _.
Arguments analytics_of {World} _ _.
Arguments query_documents {World} _ _ _ _.
Arguments get_course_stats {World} _ _ _.

End TestApp.

(** The mocked RAG system of [tests/conftest.py], lines 121-134, and
    the failing one of [test_query_error_returns_500]: every call
    returns its [return_value], the world is trivial. *)

Module MockRag.

Import TestApp.

Definition mock_rag_system : RagSystem unit :=
  mkRagSystem unit
    (fun w => (Returned "new-session-id", w))
    (fun _ _ w =>
       (Returned ("This is a test response about the course.",
                  [[("text", Some "Test Course - Lesson 1");
                    ("url", Some "https://example.com/lesson1")]]), w))
    (fun w =>
       (Returned [("total_courses", AInt 3%Z);
                  ("course_titles", ATitles ["Course A"; "Course B"; "Course C"])],
        w)).

Definition failing_rag_system : RagSystem unit :=
  mkRagSystem unit
    (fun w => (Returned "new-session-id", w))
    (fun _ _ w => (Raised (mkException "Database error"), w))
    (fun w => (Raised (mkException "Vector DB error"), w)).

Definition citation_error (s : source_dict) : Exception :=
  mkException "1 validation error for SourceCitation".

Definition stats_error (a b : analytics_value) : Exception :=
  mkException "1 validation error for CourseStats".

End MockRag.

(** ** Vocabulary of the statements *)

(** [needle] occurs in [hay]. *)
Definition contains (needle hay : string) : Prop :=
  exists pre post, hay = String.append pre (String.append needle post).

(** [l1] is a strict prefix of [l2]. *)
Definition strict_prefix {A : Type} (l1 l2 : list A) : Prop :=
  exists ext, ext <> [] /\ l2 = l1 ++ ext.

(** Roles alternate, starting with [first]. *)
Fixpoint alternating (first other : string) (roles : list string) : bool :=
  match roles with
  | [] => true
  | r :: rs => String.eqb r first && alternating other first rs
  end.

Definition outcome_map {A B : Type} (f : A -> B) (r : outcome A) : outcome B :=
  match r with
  | Returned a => Returned (f a)
  | Raised e => Raised e
  end.

Definition is_text_block (b : content_block) : bool :=
  match b with TextBlock _ => true | _ => false end.

Definition use_id (u : string * string * dict) : string := fst (fst u).

(** The result entries and the calls of a round, given its tool-use
    blocks and the outcome of each execution. *)
Definition round_entries (uses : list (string * string * dict))
    (outs : list (outcome string)) : list tool_result :=
  map (fun uo => AIGenerator.result_entry (use_id (fst uo)) (snd uo))
      (combine uses outs).

Definition round_events (uses : list (string * string * dict))
    (outs : list (outcome string)) : trace :=
  map (fun uo => ExecuteCall (snd (fst (fst uo))) (snd (fst uo)) (snd uo))
      (combine uses outs).

(** The messages a round appends: the assistant turn, then one user
    turn with all the results when there are any. *)
Definition round_turns (resp : response) (rs : list tool_result) : list message :=
  mkMessage "assistant" (Blocks (resp_content resp))
  :: match rs with
     | [] => []
     | _ :: _ => [mkMessage "user" (ToolResults rs)]
     end.

(** Some execution of the trace raised. *)
Fixpoint raised_in (t : trace) : bool :=
  match t with
  | [] => false
  | ExecuteCall _ _ (Raised _) :: _ => true
  | _ :: t' => raised_in t'
  end.

(** The endpoint calls of the loop entered with messages [m] and
    response [resp]: every call is sent the messages of the call before
    it followed by the turns of one round, and a call that raises is the
    last one. *)
Fixpoint conversation_grows (m : list message) (resp : response)
    (calls : list (api_params * outcome response)) : Prop :=
  match calls with
  | [] => True
  | (p, r) :: rest =>
      (exists rs,
          List.length rs = List.length (tool_use_blocks (resp_content resp)) /\
          p_messages p = m ++ round_turns resp rs) /\
      match r with
      | Returned nr => conversation_grows (p_messages p) nr rest
      | Raised _ => rest = []
      end
  end.

(** What the loop entered at round [depth] may still do: at most
    [MAX_TOOL_ROUNDS - depth + 1] endpoint calls; executions only in the
    rounds [depth .. MAX_TOOL_ROUNDS] (counted from [c], the number of
    endpoint calls made before); and the call made once the budget is
    used up carries no tool schema and has its text returned. *)
Definition within_budget {World : Type} (depth : nat)
    (x : outcome string * World * trace) : Prop :=
  List.length (endpoint_calls (snd x)) <= S (AIGenerator.MAX_TOOL_ROUNDS - depth) /\
  (forall c, Forall (fun k => c <= k <= c + (AIGenerator.MAX_TOOL_ROUNDS - depth))
                    (execution_rounds c (snd x))) /\
  (forall j p r,
      AIGenerator.MAX_TOOL_ROUNDS - depth <= j ->
      nth_error (endpoint_calls (snd x)) j = Some (p, r) ->
      p_tools p = None /\ p_tool_choice p = None /\
      fst (fst x) = outcome_map AIGenerator._extract_text_response r).

(** An endpoint call that raised is the last event, and its exception
    is the outcome. *)
Definition fault_is_final {World : Type}
    (x : outcome string * World * trace) : Prop :=
  forall p e,
    In (CreateCall p (Raised e)) (snd x) ->
    fst (fst x) = Raised e /\
    exists t0,
      snd x = t0 ++ [CreateCall p (Raised e)] /\
      forall q e', ~ In (CreateCall q (Raised e')) t0.

(** [system_content] and the parameters of the first endpoint call
    (lines 79-98). *)
Definition system_content {World : Type} (self : AIGenerator.t World)
    (conversation_history : option string) : string :=
  match conversation_history with
  | Some (String c h) =>
      String.append (AIGenerator.SYSTEM_PROMPT self)
        (String "010" (String "010"
          (String.append "Previous conversation:"
                         (String "010" (String c h)))))
  | _ => AIGenerator.SYSTEM_PROMPT self
  end.

Definition user_turn (query : string) : message :=
  mkMessage "user" (QueryText query).

Definition first_params {World : Type} (self : AIGenerator.t World)
    (query : string) (conversation_history : option string)
    (tools : option (list dict)) : api_params :=
  let p := AIGenerator.base_params self [user_turn query]
             (system_content self conversation_history) in
  match tools with
  | Some (d :: ds) => AIGenerator.with_tools p (d :: ds)
  | _ => p
  end.

(** The endpoint calls of a whole query. *)
Definition conversation (query : string)
    (calls : list (api_params * outcome response)) : Prop :=
  match calls with
  | [] => False
  | (p, r) :: rest =>
      p_messages p = [user_turn query] /\
      match r with
      | Returned resp => conversation_grows (p_messages p) resp rest
      | Raised _ => rest = []
      end
  end.

(** *** Two statements of the design document, as they are written *)

(** Section 8, first property: a first response without tool-use blocks
    (or no tool schemas, or no tool manager) means one endpoint call and
    the text of that response. *)
Definition first_response_claim : Prop :=
  forall (World : Type) (self : AIGenerator.t World)
         (query : string) (hist : option string) (tools : option (list dict))
         (tmo : option (AIGenerator.ToolManager World)) (w w1 : World)
         (resp : response),
    AIGenerator.client_create self (first_params self query hist tools) w
      = (Returned resp, w1) ->
    tool_use_blocks (resp_content resp) = []
      \/ truthy_list tools = false \/ tmo = None ->
    AIGenerator.generate_response self query hist tools tmo w =
      (Returned (AIGenerator._extract_text_response resp), w1,
       [CreateCall (first_params self query hist tools) (Returned resp)]).

(** Section 3, the invariant of the message sequence: append-only,
    roles alternating from the initial user turn, [1 + 2 k] messages
    after [k] rounds that each hold an invocation. *)
Definition message_sequence_claim : Prop :=
  forall (World : Type) (self : AIGenerator.t World)
         (query : string) (hist : option string) (tools : option (list dict))
         (tmo : option (AIGenerator.ToolManager World)) (w : World),
    let calls :=
      endpoint_calls
        (snd (AIGenerator.generate_response self query hist tools tmo w)) in
    (forall n p r p' r',
        nth_error calls n = Some (p, r) ->
        nth_error calls (S n) = Some (p', r') ->
        strict_prefix (p_messages p) (p_messages p')) /\
    (forall n p r,
        nth_error calls n = Some (p, r) ->
        alternating "user" "assistant" (map role (p_messages p)) = true) /\
    (forall n p r,
        nth_error calls n = Some (p, r) ->
        (forall j pj resp,
            j < n -> nth_error calls j = Some (pj, Returned resp) ->
            tool_use_blocks (resp_content resp) <> []) ->
        List.length (p_messages p) = 1 + 2 * n).

(** *** Requests and executions *)

(** The name and the input of every tool-use block of a response, and
    of every tool execution of a trace, in order. *)
Definition requested (resp : response) : list (string * dict) :=
  map (fun u => (snd (fst u), snd u)) (tool_use_blocks (resp_content resp)).

Definition requested_by (r : outcome response) : list (string * dict) :=
  match r with
  | Returned resp => requested resp
  | Raised _ => []
  end.

Definition executed (t : trace) : list (string * dict) :=
  map (fun c => (fst (fst c), snd (fst c))) (tool_calls t).

(** The fixed part of the parameters of an endpoint call
    ([base_params], lines 52-56, with the system text). *)
Definition fixed_params {World : Type} (self : AIGenerator.t World)
    (system : string) (p : api_params) : Prop :=
  p_model p = AIGenerator.model self /\
  p_temperature p = 0 /\
  p_max_tokens p = 800 /\
  p_system p = system.

(** [tools] and [tool_choice] are absent together, or are the given
    schemas and [{"type": "auto"}]. *)
Definition tools_key (tools : list dict) (p : api_params) : Prop :=
  (p_tools p = None /\ p_tool_choice p = None) \/
  (p_tools p = Some tools /\ p_tool_choice p = Some [("type", "auto")]).

(** Every endpoint call of the loop that is followed by another one
    offered the tools and was answered by a tool request. *)
Definition continued_by_request (tools : list dict)
    (calls : list (api_params * outcome response)) : Prop :=
  forall n p r c',
    nth_error calls n = Some (p, r) ->
    nth_error calls (S n) = Some c' ->
    p_tools p = Some tools /\
    exists resp, r = Returned resp /\ stop_reason resp = "tool_use".

(** The loop ends with an endpoint call, and its outcome is the one of
    that call: the exception, or the text extracted from the response. *)
Definition ends_with_last_call {World : Type}
    (x : outcome string * World * trace) : Prop :=
  exists t0 p r,
    snd x = t0 ++ [CreateCall p r] /\
    fst (fst x) = outcome_map AIGenerator._extract_text_response r.

(** The executions of the loop are the requests of the response it was
    entered with, then those of every response but the last. *)
Definition executes_the_requests {World : Type} (resp : response)
    (x : outcome string * World * trace) : Prop :=
  endpoint_calls (snd x) <> [] /\
  executed (snd x) =
    requested resp
      ++ flat_map requested_by (removelast (map snd (endpoint_calls (snd x)))).

(** After an execution that raised, the rest of the trace holds one
    endpoint call only, and that call offers no tool. *)
Definition fault_ends_the_rounds (t : trace) : Prop :=
  forall t1 n i e t2,
    t = t1 ++ ExecuteCall n i (Raised e) :: t2 ->
    exists p r,
      endpoint_calls t2 = [(p, r)] /\ p_tools p = None /\ p_tool_choice p = None.

(** ** Properties of the loop *)

Section LoopProperties.

Import AIGenerator.

Context {World : Type}.
Variable self : AIGenerator.t World.
Variable tm : ToolManager World.

(** The events of a trace are the calls made, in order, each with the
    outcome the endpoint or the tool gave in the world of that moment. *)
Fixpoint consistent (t : trace) (w w' : World) : Prop :=
  match t with
  | [] => w = w'
  | CreateCall p r :: t' =>
      exists w1, client_create self p w = (r, w1) /\ consistent t' w1 w'
  | ExecuteCall n i r :: t' =>
      exists w1, execute_tool tm n i w = (r, w1) /\ consistent t' w1 w'
  end.

(** The message list and the parameters of the endpoint call that ends
    a round (lines 139-142, 171-172 and 178-187). *)
Definition round_messages (messages : list message) (resp : response)
    (tool_results : list tool_result) : list message :=
  match tool_results with
  | [] => messages ++ [mkMessage "assistant" (Blocks (resp_content resp))]
  | _ :: _ =>
      (messages ++ [mkMessage "assistant" (Blocks (resp_content resp))])
        ++ [mkMessage "user" (ToolResults tool_results)]
  end.

Definition round_params (messages : list message) (system : string)
    (tools : list dict) (depth : nat) (has_error : bool) : api_params :=
  if allow_more_tools depth has_error
  then with_tools (base_params self messages system) tools
  else base_params self messages system.

Variable system : string.
Variable tools : list dict.

(** What a round computes from the outcomes [outs] of its executions. *)
Definition round_results (resp : response) (outs : list (outcome string))
  : list tool_result :=
  round_entries (tool_use_blocks (resp_content resp)) outs.

Definition round_trace (resp : response) (outs : list (outcome string)) : trace :=
  round_events (tool_use_blocks (resp_content resp)) outs.

Definition next_messages (messages : list message) (resp : response)
    (outs : list (outcome string)) : list message :=
  round_messages messages resp (round_results resp outs).

Definition next_params (messages : list message) (resp : response)
    (outs : list (outcome string)) (depth : nat) : api_params :=
  round_params (next_messages messages resp outs) system tools depth
               (existsb raised outs).

Lemma endpoint_calls_app t1 t2 :
  endpoint_calls (t1 ++ t2) = endpoint_calls t1 ++ endpoint_calls t2.
Proof.
  induction t1 as [|[p r|n i r] t1 IH]; cbn; rewrite ?IH; reflexivity.
Qed.

Lemma execution_rounds_app t1 : forall c t2,
  execution_rounds c (t1 ++ t2) =
  execution_rounds c t1 ++ execution_rounds (c + List.length (endpoint_calls t1)) t2.
Proof.
  induction t1 as [|[p r|n i r] t1 IH]; intros c t2; cbn.
  - rewrite Nat.add_0_r. reflexivity.
  - rewrite IH. cbn. rewrite Nat.add_succ_r. reflexivity.
  - rewrite IH. reflexivity.
Qed.

Lemma round_events_no_endpoint_call uses : forall outs,
  endpoint_calls (round_events uses outs) = [].
Proof.
  induction uses as [|u uses IH]; intros [|o outs]; cbn; auto.
  apply IH.
Qed.

Lemma round_events_rounds uses : forall outs c,
  Forall (eq c) (execution_rounds c (round_events uses outs)).
Proof.
  induction uses as [|u uses IH]; intros [|o outs] c; cbn; constructor; auto.
  apply IH.
Qed.

Lemma round_events_tool_calls uses : forall outs,
  List.length outs = List.length uses ->
  map (fun c => (fst (fst c), snd (fst c))) (tool_calls (round_events uses outs)) =
  map (fun u => (snd (fst u), snd u)) uses.
Proof.
  induction uses as [|[[i n] a] uses IH]; intros [|o outs] H; cbn in *;
    try discriminate; auto.
  f_equal. apply IH. lia.
Qed.

(** The [for] loop runs to its end: one execution and one entry per
    tool-use block, in order, whatever the executions raise. *)
Lemma execute_tool_calls_spec blocks : forall acc he w,
  exists outs w',
    execute_tool_calls tm blocks acc he w =
      (Returned (acc ++ round_entries (tool_use_blocks blocks) outs,
                 existsb raised outs || he),
       w', round_events (tool_use_blocks blocks) outs) /\
    List.length outs = List.length (tool_use_blocks blocks) /\
    consistent (round_events (tool_use_blocks blocks) outs) w w'.
Proof.
  induction blocks as [|b blocks IH]; intros acc he w.
  - exists [], w. cbn. rewrite app_nil_r. auto.
  - destruct b as [text|id name input|th]; cbn [execute_tool_calls tool_use_blocks].
    + apply IH.
    + unfold bind, try_execute_tool.
      destruct (execute_tool tm name input w) as [r w1] eqn:E.
      destruct (IH (acc ++ [result_entry id r]) (raised r || he) w1)
        as [outs [w' [Hrun [Hlen Hcons]]]].
      exists (r :: outs), w'. rewrite Hrun. cbn.
      rewrite <- app_assoc. cbn.
      repeat split.
      * do 3 f_equal. destruct (raised r), (existsb raised outs), he; reflexivity.
      * lia.
      * exists w1. auto.
    + apply IH.
Qed.

Lemma tool_round_eq resp messages depth w :
  tool_round self resp messages system tools tm depth w =
  match execute_tool_calls tm (resp_content resp) [] false w with
  | (Returned (rs, he), w1, te) =>
      let nm := round_messages messages resp rs in
      let p := round_params nm system tools depth he in
      let '(r, w2) := client_create self p w1 in
      (outcome_map (fun nr => (nr, nm, allow_more_tools depth he)) r, w2,
       te ++ [CreateCall p r])
  | (Raised e, w1, te) => (Raised e, w1, te)
  end.
Proof.
  unfold tool_round, bind.
  destruct (execute_tool_calls tm (resp_content resp) [] false w)
    as [[[[rs he]|e] w1] te]; [|reflexivity].
  unfold round_params, round_messages, create.
  destruct rs as [|r0 rs];
    destruct (allow_more_tools depth he);
    match goal with |- context [client_create self ?p w1] =>
      destruct (client_create self p w1) as [[nr|e] w2] end;
    cbn; rewrite ?app_nil_r; reflexivity.
Qed.

(** The defining equation of [_continue_tool_loop], in the shape of the
    source. *)
Lemma continue_tool_loop_unfold resp messages depth w :
  _continue_tool_loop self resp messages system tools tm depth w =
  match tool_round self resp messages system tools tm depth w with
  | (Raised e, w1, t1) => (Raised e, w1, t1)
  | (Returned (next_response, new_messages, allow), w1, t1) =>
      if String.eqb (stop_reason next_response) "tool_use" && allow
      then after t1 (_continue_tool_loop self next_response new_messages
                                         system tools tm (depth + 1) w1)
      else (Returned (_extract_text_response next_response), w1, t1)
  end.
Proof.
  funelim (_continue_tool_loop self resp messages system tools tm depth w).
  all: match goal with E : tool_round _ _ _ _ _ _ _ _ = _ |- _ => rewrite E end.
  all: try match goal with E : (_ && _)%bool = _ |- _ => rewrite E end.
  all: reflexivity.
Qed.

(** One round of the loop: the executions, the endpoint call, and the
    decision to recurse or to extract the text. *)
Lemma continue_tool_loop_step resp messages depth w :
  exists outs w1,
    List.length outs = List.length (tool_use_blocks (resp_content resp)) /\
    consistent (round_trace resp outs) w w1 /\
    execute_tool_calls tm (resp_content resp) [] false w =
      (Returned (round_results resp outs, existsb raised outs), w1,
       round_trace resp outs) /\
    _continue_tool_loop self resp messages system tools tm depth w =
      match client_create self (next_params messages resp outs depth) w1 with
      | (Returned nr, w2) =>
          if String.eqb (stop_reason nr) "tool_use"
             && allow_more_tools depth (existsb raised outs)
          then after (round_trace resp outs
                        ++ [CreateCall (next_params messages resp outs depth)
                                       (Returned nr)])
                     (_continue_tool_loop self nr (next_messages messages resp outs)
                                          system tools tm (depth + 1) w2)
          else (Returned (_extract_text_response nr), w2,
                round_trace resp outs
                  ++ [CreateCall (next_params messages resp outs depth)
                                 (Returned nr)])
      | (Raised e, w2) =>
          (Raised e, w2,
           round_trace resp outs
             ++ [CreateCall (next_params messages resp outs depth) (Raised e)])
      end.
Proof.
  destruct (execute_tool_calls_spec (resp_content resp) [] false w)
    as [outs [w1 [Hrun [Hlen Hcons]]]].
  cbn [app] in Hrun. rewrite orb_false_r in Hrun.
  exists outs, w1. repeat split; try assumption.
  rewrite continue_tool_loop_unfold, tool_round_eq, Hrun.
  unfold next_params, next_messages, round_results, round_trace. cbn zeta.
  destruct (client_create self _ w1) as [[nr|e] w2]; reflexivity.
Qed.

(** Induction over the rounds of the loop. *)
Lemma continue_tool_loop_rounds
    (P : nat -> response -> list message -> World ->
         outcome string * World * trace -> Prop) :
  (forall depth resp messages w outs w1 r w2,
      List.length outs = List.length (tool_use_blocks (resp_content resp)) ->
      consistent (round_trace resp outs) w w1 ->
      client_create self (next_params messages resp outs depth) w1 = (r, w2) ->
      (forall nr, r = Returned nr ->
         String.eqb (stop_reason nr) "tool_use"
         && allow_more_tools depth (existsb raised outs) = false) ->
      P depth resp messages w
        (outcome_map _extract_text_response r, w2,
         round_trace resp outs
           ++ [CreateCall (next_params messages resp outs depth) r])) ->
  (forall depth resp messages w outs w1 nr w2,
      List.length outs = List.length (tool_use_blocks (resp_content resp)) ->
      consistent (round_trace resp outs) w w1 ->
      client_create self (next_params messages resp outs depth) w1
        = (Returned nr, w2) ->
      stop_reason nr = "tool_use" ->
      depth < MAX_TOOL_ROUNDS ->
      existsb raised outs = false ->
      P (depth + 1) nr (next_messages messages resp outs) w2
        (_continue_tool_loop self nr (next_messages messages resp outs)
                             system tools tm (depth + 1) w2) ->
      P depth resp messages w
        (after (round_trace resp outs
                  ++ [CreateCall (next_params messages resp outs depth)
                                 (Returned nr)])
               (_continue_tool_loop self nr (next_messages messages resp outs)
                                    system tools tm (depth + 1) w2))) ->
  forall depth resp messages w,
    P depth resp messages w
      (_continue_tool_loop self resp messages system tools tm depth w).
Proof.
  intros Hlast Hmore depth.
  remember (MAX_TOOL_ROUNDS - depth) as k eqn:Hk.
  revert depth Hk.
  induction k as [|k IH]; intros depth Hk resp messages w;
    destruct (continue_tool_loop_step resp messages depth w)
      as [outs [w1 [Hlen [Hcons [_ Hloop]]]]];
    rewrite Hloop;
    destruct (client_create self (next_params messages resp outs depth) w1)
      as [[nr|e] w2] eqn:Hcall.
  - assert (Hallow : allow_more_tools depth (existsb raised outs) = false).
    { unfold allow_more_tools.
      replace (Nat.ltb depth MAX_TOOL_ROUNDS) with false; [reflexivity|].
      symmetry. apply Nat.ltb_ge. lia. }
    rewrite Hallow, andb_false_r.
    apply (Hlast depth resp messages w outs w1 (Returned nr) w2); auto.
    intros nr' _. rewrite Hallow. apply andb_false_r.
  - apply (Hlast depth resp messages w outs w1 (Raised e) w2); auto.
    intros nr' Habs. discriminate.
  - destruct (String.eqb (stop_reason nr) "tool_use"
              && allow_more_tools depth (existsb raised outs)) eqn:Hgo.
    + apply andb_prop in Hgo. destruct Hgo as [Hstop Hallow].
      unfold allow_more_tools in Hallow.
      apply andb_prop in Hallow. destruct Hallow as [Hd Hne].
      apply Nat.ltb_lt in Hd. apply negb_true_iff in Hne.
      apply String.eqb_eq in Hstop.
      apply (Hmore depth resp messages w outs w1 nr w2); auto.
      apply IH. lia.
    + apply (Hlast depth resp messages w outs w1 (Returned nr) w2); auto.
      intros nr' Heq. injection Heq as <-. exact Hgo.
  - apply (Hlast depth resp messages w outs w1 (Raised e) w2); auto.
    intros nr' Habs. discriminate.
Qed.

Lemma round_nth uses : forall outs k id name input,
  List.length outs = List.length uses ->
  nth_error uses k = Some (id, name, input) ->
  exists r,
    nth_error (tool_calls (round_events uses outs)) k = Some (name, input, r) /\
    nth_error (round_entries uses outs) k = Some (result_entry id r).
Proof.
  induction uses as [|u uses IH]; intros [|o outs] [|k] id name input Hlen Hk;
    cbn in *; try discriminate.
  - injection Hk as ->. exists o. auto.
  - apply IH; [lia | exact Hk].
Qed.

Lemma round_entries_ids uses : forall outs,
  List.length outs = List.length uses ->
  map tool_use_id (round_entries uses outs) = map use_id uses.
Proof.
  induction uses as [|u uses IH]; intros [|o outs] Hlen; cbn in *;
    try discriminate; auto.
  f_equal; [destruct o; reflexivity | apply IH; lia].
Qed.

Lemma round_entries_length uses outs :
  List.length outs = List.length uses ->
  List.length (round_entries uses outs) = List.length uses.
Proof.
  intros H. unfold round_entries. rewrite length_map, length_combine. lia.
Qed.

Lemma raised_in_round_events uses : forall outs,
  List.length outs = List.length uses ->
  raised_in (round_events uses outs) = existsb raised outs.
Proof.
  induction uses as [|u uses IH]; intros [|o outs] Hlen; cbn in *;
    try discriminate; auto.
  destruct o as [x|e]; cbn; [apply IH; lia | reflexivity].
Qed.

Lemma round_params_messages messages depth he :
  p_messages (round_params messages system tools depth he) = messages.
Proof. unfold round_params. destruct (allow_more_tools depth he); reflexivity. Qed.

Lemma round_params_allowed messages depth he :
  allow_more_tools depth he = true ->
  p_tools (round_params messages system tools depth he) = Some tools /\
  p_tool_choice (round_params messages system tools depth he)
    = Some [("type", "auto")].
Proof. unfold round_params. intros ->. auto. Qed.

Lemma round_params_refused messages depth he :
  allow_more_tools depth he = false ->
  p_tools (round_params messages system tools depth he) = None /\
  p_tool_choice (round_params messages system tools depth he) = None.
Proof. unfold round_params. intros ->. auto. Qed.

Lemma allow_more_tools_iff depth he :
  allow_more_tools depth he = true <-> depth < MAX_TOOL_ROUNDS /\ he = false.
Proof.
  unfold allow_more_tools.
  rewrite andb_true_iff, Nat.ltb_lt, negb_true_iff. reflexivity.
Qed.

(** C4.  Tool faults are isolated per invocation.  The loop over the
    content blocks of a round always runs to its end: every tool-use
    block is executed, in order, and gives exactly one result entry at
    the same position.  The entry of an invocation whose [execute]
    raised is flagged [is_error] and its content is
    ["Error executing tool: "] followed by the text of the exception;
    the entry of an invocation that returned carries the returned text
    and no error flag. *)
Theorem tool_faults_are_isolated (resp : response) (w : World) :
  exists rs he w1 te,
    execute_tool_calls tm (resp_content resp) [] false w
      = (Returned (rs, he), w1, te) /\
    consistent te w w1 /\
    endpoint_calls te = [] /\
    List.length (tool_calls te) = List.length (tool_use_blocks (resp_content resp)) /\
    List.length rs = List.length (tool_use_blocks (resp_content resp)) /\
    forall k id name input,
      nth_error (tool_use_blocks (resp_content resp)) k = Some (id, name, input) ->
      exists r entry,
        nth_error (tool_calls te) k = Some (name, input, r) /\
        nth_error rs k = Some entry /\
        tr_type entry = "tool_result" /\
        tool_use_id entry = id /\
        match r with
        | Raised e =>
            is_error entry = Some true /\
            tr_content entry = String.append "Error executing tool: " (exn_str e)
        | Returned text =>
            is_error entry = None /\ tr_content entry = text
        end.
Proof.
  destruct (execute_tool_calls_spec (resp_content resp) [] false w)
    as [outs [w1 [Hrun [Hlen Hcons]]]].
  cbn [app] in Hrun. rewrite orb_false_r in Hrun.
  exists (round_results resp outs), (existsb raised outs), w1, (round_trace resp outs).
  split; [exact Hrun|]. split; [exact Hcons|].
  split; [apply round_events_no_endpoint_call|].
  split.
  { unfold round_trace.
    rewrite <- (length_map (fun c => (fst (fst c), snd (fst c)))).
    rewrite round_events_tool_calls by exact Hlen. apply length_map. }
  split; [apply round_entries_length; exact Hlen|].
  intros k id name input Hk.
  destruct (round_nth _ outs k id name input Hlen Hk) as [r [Hc He]].
  exists r, (result_entry id r).
  split; [exact Hc|]. split; [exact He|].
  destruct r; cbn; auto.
Qed.

Lemma round_messages_turns messages resp rs :
  round_messages messages resp rs = messages ++ round_turns resp rs.
Proof.
  unfold round_messages, round_turns.
  destruct rs; [reflexivity|]. rewrite <- app_assoc. reflexivity.
Qed.

Lemma loop_trace_starts resp messages depth w outs w1 :
  _continue_tool_loop self resp messages system tools tm depth w =
    match client_create self (next_params messages resp outs depth) w1 with
    | (Returned nr, w2) =>
        if String.eqb (stop_reason nr) "tool_use"
           && allow_more_tools depth (existsb raised outs)
        then after (round_trace resp outs
                      ++ [CreateCall (next_params messages resp outs depth)
                                     (Returned nr)])
                   (_continue_tool_loop self nr (next_messages messages resp outs)
                                        system tools tm (depth + 1) w2)
        else (Returned (_extract_text_response nr), w2,
              round_trace resp outs
                ++ [CreateCall (next_params messages resp outs depth)
                               (Returned nr)])
    | (Raised e, w2) =>
        (Raised e, w2,
         round_trace resp outs
           ++ [CreateCall (next_params messages resp outs depth) (Raised e)])
    end ->
  exists rest,
    snd (_continue_tool_loop self resp messages system tools tm depth w) =
    round_trace resp outs
      ++ CreateCall (next_params messages resp outs depth)
           (fst (client_create self (next_params messages resp outs depth) w1))
         :: rest.
Proof.
  intros ->.
  destruct (client_create self (next_params messages resp outs depth) w1)
    as [[nr|e] w2]; cbn [fst].
  - destruct (String.eqb (stop_reason nr) "tool_use"
              && allow_more_tools depth (existsb raised outs)).
    + destruct (_continue_tool_loop self nr (next_messages messages resp outs)
                  system tools tm (depth + 1) w2) as [[res w'] t'].
      exists t'. cbn. rewrite <- app_assoc. reflexivity.
    + exists []. reflexivity.
  - exists []. reflexivity.
Qed.

(** C6.  In a round that executes tools (its response holds at least
    one tool-use block) the endpoint call that follows is sent the old
    messages, then the assistant message holding the blocks of the
    response, then one user message whose content is the list of all the
    result entries of the round.  The entries are in the order of the
    tool-use blocks and the [tool_use_id] of each one is the [id] of the
    block whose execution produced it. *)
Theorem results_follow_their_invocations
    (resp : response) (messages : list message) (depth : nat) (w : World) :
  tool_use_blocks (resp_content resp) <> [] ->
  exists rs te w1 p r rest,
    fst (execute_tool_calls tm (resp_content resp) [] false w)
      = (Returned (rs, raised_in te), w1) /\
    snd (_continue_tool_loop self resp messages system tools tm depth w)
      = te ++ CreateCall p r :: rest /\
    endpoint_calls te = [] /\
    p_messages p =
      messages ++ [mkMessage "assistant" (Blocks (resp_content resp));
                   mkMessage "user" (ToolResults rs)] /\
    map tool_use_id rs = map use_id (tool_use_blocks (resp_content resp)) /\
    forall k id name input,
      nth_error (tool_use_blocks (resp_content resp)) k = Some (id, name, input) ->
      exists out,
        nth_error (tool_calls te) k = Some (name, input, out) /\
        nth_error rs k = Some (result_entry id out).
Proof.
  intros Hne.
  destruct (continue_tool_loop_step resp messages depth w)
    as [outs [w1 [Hlen [Hcons [Hrun Hloop]]]]].
  destruct (loop_trace_starts _ _ _ _ _ _ Hloop) as [rest Hrest].
  exists (round_results resp outs), (round_trace resp outs), w1,
         (next_params messages resp outs depth),
         (fst (client_create self (next_params messages resp outs depth) w1)),
         rest.
  split.
  { rewrite Hrun. cbn. unfold round_trace.
    rewrite raised_in_round_events by exact Hlen. reflexivity. }
  split; [exact Hrest|].
  split; [apply round_events_no_endpoint_call|].
  split.
  { unfold next_params. rewrite round_params_messages.
    unfold next_messages. rewrite round_messages_turns. unfold round_turns.
    destruct (round_results resp outs) as [|e es] eqn:E; [|reflexivity].
    exfalso. apply Hne.
    apply (f_equal (@List.length _)) in E. unfold round_results in E.
    rewrite round_entries_length in E by exact Hlen.
    destruct (tool_use_blocks (resp_content resp)); [reflexivity|discriminate]. }
  split; [apply round_entries_ids; exact Hlen|].
  intros k id name input Hk.
  apply (round_nth _ outs k id name input Hlen Hk).
Qed.

(** C10.  A response handled by the loop that holds no tool-use block
    (whatever its stop indicator, ["tool_use"] included): no tool is
    executed, so the next event is the next endpoint call, made in the
    unchanged world; no user turn is appended, the messages of that call
    end with the assistant turn just appended. *)
Theorem round_without_invocations
    (resp : response) (messages : list message) (depth : nat) (w : World) :
  tool_use_blocks (resp_content resp) = [] ->
  exists p rest,
    execute_tool_calls tm (resp_content resp) [] false w
      = (Returned ([], false), w, []) /\
    snd (_continue_tool_loop self resp messages system tools tm depth w)
      = CreateCall p (fst (client_create self p w)) :: rest /\
    p_messages p
      = messages ++ [mkMessage "assistant" (Blocks (resp_content resp))].
Proof.
  intros Hnone.
  destruct (continue_tool_loop_step resp messages depth w)
    as [outs [w1 [Hlen [Hcons [Hrun Hloop]]]]].
  destruct (loop_trace_starts _ _ _ _ _ _ Hloop) as [rest Hrest].
  unfold round_trace, round_results in *. rewrite Hnone in *.
  destruct outs as [|o outs]; [|discriminate].
  cbn in Hcons, Hrun, Hrest. subst w1.
  exists (next_params messages resp [] depth), rest.
  split; [exact Hrun|]. split; [exact Hrest|].
  unfold next_params. rewrite round_params_messages.
  unfold next_messages, round_results. rewrite Hnone. reflexivity.
Qed.

(** C1.  At the end of round [depth] the flag [allow_more_tools] holds
    exactly when [depth < MAX_TOOL_ROUNDS = 2] and no execution of the
    round raised.  When it holds, the next endpoint call carries the
    tool schemas and a response that asks for tools starts round
    [depth + 1].  When it does not, the next endpoint call has neither
    [tools] nor [tool_choice], and whatever comes back (a tool request
    included) only has its text extracted: that is the answer and the
    last call. *)
Theorem further_round_permitted
    (resp : response) (messages : list message) (depth : nat) (w : World) :
  exists rs te w1 p r w2,
    execute_tool_calls tm (resp_content resp) [] false w
      = (Returned (rs, raised_in te), w1, te) /\
    client_create self p w1 = (r, w2) /\
    MAX_TOOL_ROUNDS = 2 /\
    (allow_more_tools depth (raised_in te) = true <->
     depth < MAX_TOOL_ROUNDS /\ raised_in te = false) /\
    if allow_more_tools depth (raised_in te)
    then
      p_tools p = Some tools /\
      p_tool_choice p = Some [("type", "auto")] /\
      _continue_tool_loop self resp messages system tools tm depth w =
        match r with
        | Returned nr =>
            if String.eqb (stop_reason nr) "tool_use"
            then after (te ++ [CreateCall p r])
                       (_continue_tool_loop self nr (p_messages p) system tools
                                            tm (depth + 1) w2)
            else (Returned (_extract_text_response nr), w2, te ++ [CreateCall p r])
        | Raised e => (Raised e, w2, te ++ [CreateCall p r])
        end
    else
      p_tools p = None /\
      p_tool_choice p = None /\
      _continue_tool_loop self resp messages system tools tm depth w =
        (outcome_map _extract_text_response r, w2, te ++ [CreateCall p r]).
Proof.
  destruct (continue_tool_loop_step resp messages depth w)
    as [outs [w1 [Hlen [Hcons [Hrun Hloop]]]]].
  assert (Hr : raised_in (round_trace resp outs) = existsb raised outs)
    by (apply raised_in_round_events; exact Hlen).
  destruct (client_create self (next_params messages resp outs depth) w1)
    as [r w2] eqn:Hcall.
  exists (round_results resp outs), (round_trace resp outs), w1,
         (next_params messages resp outs depth), r, w2.
  rewrite Hr.
  split; [exact Hrun|]. split; [exact Hcall|]. split; [reflexivity|].
  split; [apply allow_more_tools_iff|].
  unfold next_params at 1 2 3 4. rewrite Hloop.
  destruct (allow_more_tools depth (existsb raised outs)) eqn:Hallow.
  - destruct (round_params_allowed (next_messages messages resp outs) depth _ Hallow)
      as [Ht Hc].
    split; [exact Ht|]. split; [exact Hc|].
    unfold next_params at 5. rewrite round_params_messages.
    destruct r as [nr|e]; [|reflexivity].
    rewrite andb_true_r. reflexivity.
  - destruct (round_params_refused (next_messages messages resp outs) depth _ Hallow)
      as [Ht Hc].
    split; [exact Ht|]. split; [exact Hc|].
    destruct r as [nr|e]; [|reflexivity].
    rewrite andb_false_r. reflexivity.
Qed.

(** *** Invariants of the rounds *)

Local Arguments Nat.sub : simpl never.

Lemma round_events_no_create uses : forall outs p r,
  ~ In (CreateCall p r) (round_events uses outs).
Proof.
  induction uses as [|u uses IH]; intros [|o outs] p r H; cbn in H;
    try contradiction.
  destruct H as [H|H]; [discriminate | eapply IH; exact H].
Qed.

Lemma loop_within_budget depth resp messages w :
  within_budget depth
    (_continue_tool_loop self resp messages system tools tm depth w).
Proof.
  apply (continue_tool_loop_rounds (fun depth _ _ _ x => within_budget depth x));
    clear depth resp messages w.
  - intros depth resp messages w outs w1 r w2 Hlen Hcons Hcall Hstop.
    unfold within_budget. cbn [fst snd].
    rewrite endpoint_calls_app. unfold round_trace.
    rewrite round_events_no_endpoint_call. cbn.
    split; [lia|]. split.
    + intros c. rewrite execution_rounds_app. cbn. rewrite app_nil_r.
      eapply Forall_impl; [|apply round_events_rounds].
      intros k <-. lia.
    + intros [|j] p r0 Hj Hnth; cbn in Hnth.
      * injection Hnth as <- <-.
        assert (Hallow : allow_more_tools depth (existsb raised outs) = false).
        { destruct (allow_more_tools depth (existsb raised outs)) eqn:E; auto.
          apply allow_more_tools_iff in E. lia. }
        destruct (round_params_refused (next_messages messages resp outs) depth
                    _ Hallow) as [Ht Hc].
        auto.
      * destruct j; discriminate.
  - intros depth resp messages w outs w1 nr w2 Hlen Hcons Hcall Hstop Hd Hne IH.
    destruct (_continue_tool_loop self nr (next_messages messages resp outs)
                system tools tm (depth + 1) w2) as [[res w'] t'].
    unfold within_budget in *. cbn [fst snd after] in *.
    destruct IH as [IH1 [IH2 IH3]].
    rewrite !endpoint_calls_app. unfold round_trace.
    rewrite round_events_no_endpoint_call. cbn.
    split; [lia|]. split.
    + intros c. rewrite <- app_assoc, execution_rounds_app.
      rewrite round_events_no_endpoint_call. cbn.
      apply Forall_app. split.
      * eapply Forall_impl; [|apply round_events_rounds].
        intros k <-. lia.
      * eapply Forall_impl; [|apply (IH2 (S (c + 0)))].
        cbn. intros k Hk. lia.
    + intros [|j] p r Hj Hnth; [lia|].
      cbn in Hnth. apply (IH3 j p r); [lia | exact Hnth].
Qed.

Lemma loop_fault_is_final depth resp messages w :
  fault_is_final (_continue_tool_loop self resp messages system tools tm depth w).
Proof.
  apply (continue_tool_loop_rounds (fun _ _ _ _ x => fault_is_final x));
    clear depth resp messages w.
  - intros depth resp messages w outs w1 r w2 Hlen Hcons Hcall Hstop p e Hin.
    cbn [fst snd] in *. apply in_app_or in Hin. destruct Hin as [Hin|Hin].
    + exfalso. eapply round_events_no_create. exact Hin.
    + destruct Hin as [Hin|[]]. injection Hin as <- ->.
      split; [reflexivity|].
      exists (round_trace resp outs). split; [reflexivity|].
      intros q e' Hq. eapply round_events_no_create. exact Hq.
  - intros depth resp messages w outs w1 nr w2 Hlen Hcons Hcall Hstop Hd Hne IH.
    destruct (_continue_tool_loop self nr (next_messages messages resp outs)
                system tools tm (depth + 1) w2) as [[res w'] t'].
    intros p e Hin. cbn [fst snd after] in *.
    apply in_app_or in Hin. destruct Hin as [Hin|Hin].
    { exfalso. apply in_app_or in Hin. destruct Hin as [Hin|[Hin|[]]].
      - eapply round_events_no_create. exact Hin.
      - discriminate. }
    destruct (IH p e Hin) as [Hres [t0 [Ht0 Hno]]].
    cbn [fst snd] in Hres, Ht0.
    split; [exact Hres|].
    exists ((round_trace resp outs
               ++ [CreateCall (next_params messages resp outs depth) (Returned nr)])
              ++ t0).
    split; [rewrite Ht0, app_assoc; reflexivity|].
    intros q e' Hq. apply in_app_or in Hq. destruct Hq as [Hq|Hq].
    + apply in_app_or in Hq. destruct Hq as [Hq|[Hq|[]]].
      * eapply round_events_no_create. exact Hq.
      * discriminate.
    + eapply Hno. exact Hq.
Qed.

Lemma loop_conversation_grows depth resp messages w :
  conversation_grows messages resp
    (endpoint_calls
       (snd (_continue_tool_loop self resp messages system tools tm depth w))).
Proof.
  apply (continue_tool_loop_rounds
           (fun _ resp messages _ x =>
              conversation_grows messages resp (endpoint_calls (snd x))));
    clear depth resp messages w.
  - intros depth resp messages w outs w1 r w2 Hlen Hcons Hcall Hstop.
    cbn [fst snd]. rewrite endpoint_calls_app. unfold round_trace.
    rewrite round_events_no_endpoint_call. cbn. split.
    + exists (round_results resp outs). split.
      * apply round_entries_length. exact Hlen.
      * unfold next_params. rewrite round_params_messages.
        apply round_messages_turns.
    + destruct r; reflexivity.
  - intros depth resp messages w outs w1 nr w2 Hlen Hcons Hcall Hstop Hd Hne IH.
    destruct (_continue_tool_loop self nr (next_messages messages resp outs)
                system tools tm (depth + 1) w2) as [[res w'] t'].
    cbn [fst snd after] in *. rewrite !endpoint_calls_app. unfold round_trace.
    rewrite round_events_no_endpoint_call. cbn. split.
    + exists (round_results resp outs). split.
      * apply round_entries_length. exact Hlen.
      * unfold next_params. rewrite round_params_messages.
        apply round_messages_turns.
    + unfold next_params. rewrite round_params_messages. exact IH.
Qed.

End LoopProperties.

(** ** Properties of a query *)

Section QueryProperties.

Import AIGenerator.

Local Arguments Nat.sub : simpl never.

Context {World : Type}.
Variable self : AIGenerator.t World.

Lemma generate_response_eq query hist tools tmo w :
  generate_response self query hist tools tmo w =
  match client_create self (first_params self query hist tools) w with
  | (Returned resp, w1) =>
      match String.eqb (stop_reason resp) "tool_use", tmo, tools with
      | true, Some tm, Some (d :: ds) =>
          after [CreateCall (first_params self query hist tools) (Returned resp)]
                (_continue_tool_loop self resp [user_turn query]
                   (system_content self hist) (d :: ds) tm 1 w1)
      | _, _, _ =>
          (Returned (_extract_text_response resp), w1,
           [CreateCall (first_params self query hist tools) (Returned resp)])
      end
  | (Raised e, w1) =>
      (Raised e, w1, [CreateCall (first_params self query hist tools) (Raised e)])
  end.
Proof.
  unfold generate_response, bind, create.
  fold (user_turn query). fold (system_content self hist).
  fold (first_params self query hist tools).
  destruct (client_create self (first_params self query hist tools) w)
    as [[resp|e] w1]; [|reflexivity].
  destruct (String.eqb (stop_reason resp) "tool_use"), tmo as [tm|],
    tools as [[|d ds]|]; reflexivity.
Qed.

Lemma extract_first_text bs :
  (exists pre text post,
      bs = pre ++ TextBlock text :: post /\
      Forall (fun b => is_text_block b = false) pre /\
      _extract_text_response_blocks bs = text) \/
  (Forall (fun b => is_text_block b = false) bs /\
   _extract_text_response_blocks bs = "").
Proof.
  induction bs as [|b bs IH].
  - right. split; [constructor | reflexivity].
  - destruct b as [text|id name input|th].
    + left. exists [], text, bs. repeat split. constructor.
    + destruct IH as [[pre [text [post [E [Hpre Hx]]]]]|[Hall Hx]].
      * left. exists (ToolUseBlock id name input :: pre), text, post.
        rewrite E. repeat split; [constructor; auto | rewrite <- E; exact Hx].
      * right. split; [constructor; auto | exact Hx].
    + destruct IH as [[pre [text [post [E [Hpre Hx]]]]]|[Hall Hx]].
      * left. exists (ThinkingBlock th :: pre), text, post.
        rewrite E. repeat split; [constructor; auto | rewrite <- E; exact Hx].
      * right. split; [constructor; auto | exact Hx].
Qed.

(** C3, as amended.  When the first endpoint response has a stop
    indicator other than ["tool_use"], or when no tool schemas or no tool
    manager were supplied, exactly one endpoint call occurs and
    [generate_response] returns the text of the first block of that
    response that carries a text; when no block does, it returns the
    empty string, and still returns. *)
Theorem direct_answer
    (query : string) (hist : option string) (tools : option (list dict))
    (tmo : option (ToolManager World)) (w w1 : World) (resp : response) :
  client_create self (first_params self query hist tools) w = (Returned resp, w1) ->
  String.eqb (stop_reason resp) "tool_use" = false
    \/ truthy_list tools = false \/ tmo = None ->
  generate_response self query hist tools tmo w =
    (Returned (_extract_text_response resp), w1,
     [CreateCall (first_params self query hist tools) (Returned resp)]) /\
  ((exists pre text post,
       resp_content resp = pre ++ TextBlock text :: post /\
       Forall (fun b => is_text_block b = false) pre /\
       _extract_text_response resp = text) \/
   (Forall (fun b => is_text_block b = false) (resp_content resp) /\
    _extract_text_response resp = "")).
Proof.
  intros Hcall Hdirect. split; [|apply extract_first_text].
  rewrite generate_response_eq, Hcall.
  destruct Hdirect as [-> | [Htools | ->]].
  - reflexivity.
  - destruct (String.eqb (stop_reason resp) "tool_use"), tmo as [tm|],
      tools as [[|d ds]|]; try reflexivity.
    discriminate.
  - destruct (String.eqb (stop_reason resp) "tool_use"); reflexivity.
Qed.

(** C2.  [generate_response] is a total function: for every query it
    gives an outcome.  It makes at most [MAX_TOOL_ROUNDS + 1 = 3]
    endpoint calls; every tool execution happens in round 1 or 2 (after
    the first or the second endpoint call, never after the third); a
    third endpoint call carries neither [tools] nor [tool_choice], and
    the text extracted from its response is the answer, whatever its
    stop indicator. *)
Theorem rounds_are_bounded
    (query : string) (hist : option string) (tools : option (list dict))
    (tmo : option (ToolManager World)) (w : World) :
  exists res w' t,
    generate_response self query hist tools tmo w = (res, w', t) /\
    MAX_TOOL_ROUNDS + 1 = 3 /\
    List.length (endpoint_calls t) <= MAX_TOOL_ROUNDS + 1 /\
    Forall (fun k => 1 <= k <= MAX_TOOL_ROUNDS) (execution_rounds 0 t) /\
    match nth_error (endpoint_calls t) 2 with
    | Some (p, r) =>
        p_tools p = None /\ p_tool_choice p = None /\
        res = outcome_map _extract_text_response r
    | None => True
    end.
Proof.
  rewrite generate_response_eq.
  destruct (client_create self (first_params self query hist tools) w)
    as [[resp|e] w1].
  2: { do 3 eexists. split; [reflexivity|]. cbn. repeat split; auto. }
  destruct (String.eqb (stop_reason resp) "tool_use"), tmo as [tm|],
    tools as [[|d ds]|].
  all: try (do 3 eexists; split; [reflexivity|]; cbn; repeat split; auto).
  pose proof (loop_within_budget self tm (system_content self hist) (d :: ds)
                1 resp [user_turn query] w1) as [H1 [H2 H3]].
  destruct (_continue_tool_loop self resp [user_turn query]
              (system_content self hist) (d :: ds) tm 1 w1) as [[res w'] t'].
  cbn [fst snd after] in *.
  exists res, w', ([CreateCall (first_params self query hist (Some (d :: ds)))
                               (Returned resp)] ++ t').
  split; [reflexivity|]. split; [reflexivity|].
  cbn [app endpoint_calls execution_rounds List.length].
  unfold MAX_TOOL_ROUNDS in *. cbn [Nat.add] in *.
  split; [lia|]. split.
  - eapply Forall_impl; [|apply (H2 1)]. cbn. intros k Hk.
    change (2 - 1) with 1 in Hk. lia.
  - change (nth_error
              ((first_params self query hist (Some (d :: ds)), Returned resp)
                 :: endpoint_calls t') 2)
      with (nth_error (endpoint_calls t') 1).
    destruct (nth_error (endpoint_calls t') 1) as [[p r]|] eqn:E; [|exact I].
    apply (H3 1 p r); [change (2 - 1) with 1; lia | exact E].
Qed.

(** C7.  An exception raised by the endpoint, at the first call or at
    the call that ends any round, is the outcome of [generate_response]:
    the same exception, raised.  The failed call is the last event of
    the query: nothing is called after it, in particular the endpoint is
    not called again, and no earlier endpoint call had failed. *)
Theorem endpoint_fault_propagates
    (query : string) (hist : option string) (tools : option (list dict))
    (tmo : option (ToolManager World)) (w : World)
    (p : api_params) (e : Exception) :
  In (CreateCall p (Raised e))
     (snd (generate_response self query hist tools tmo w)) ->
  fst (fst (generate_response self query hist tools tmo w)) = Raised e /\
  exists t0,
    snd (generate_response self query hist tools tmo w)
      = t0 ++ [CreateCall p (Raised e)] /\
    forall q e', ~ In (CreateCall q (Raised e')) t0.
Proof.
  rewrite generate_response_eq.
  destruct (client_create self (first_params self query hist tools) w)
    as [[resp|e0] w1].
  2: { cbn. intros [H|[]]. injection H as <- <-.
       split; [reflexivity|]. exists []. split; [reflexivity|].
       intros q e' []. }
  assert (Hdirect :
    In (CreateCall p (Raised e))
       [CreateCall (first_params self query hist tools) (Returned resp)] ->
    False) by (intros [H|[]]; discriminate).
  destruct (String.eqb (stop_reason resp) "tool_use"), tmo as [tm|],
    tools as [[|d ds]|]; cbn [fst snd]; try (intros H; destruct (Hdirect H)).
  pose proof (loop_fault_is_final self tm (system_content self hist) (d :: ds)
                1 resp [user_turn query] w1) as Hloop.
  destruct (_continue_tool_loop self resp [user_turn query]
              (system_content self hist) (d :: ds) tm 1 w1) as [[res w'] t'].
  unfold fault_is_final in Hloop. cbn [fst snd after app] in *.
  intros [H|H]; [discriminate|].
  destruct (Hloop p e H) as [Hres [t0 [Ht0 Hno]]].
  split; [exact Hres|].
  exists (CreateCall (first_params self query hist (Some (d :: ds)))
                     (Returned resp) :: t0).
  split; [rewrite Ht0; reflexivity|].
  intros q e' [Hq|Hq]; [discriminate | eapply Hno; exact Hq].
Qed.

(** *** The message sequence *)

Lemma grows_step calls : forall m resp n p r p' r',
  conversation_grows m resp calls ->
  nth_error calls n = Some (p, r) ->
  nth_error calls (S n) = Some (p', r') ->
  exists nr rs,
    r = Returned nr /\
    List.length rs = List.length (tool_use_blocks (resp_content nr)) /\
    p_messages p' = p_messages p ++ round_turns nr rs.
Proof.
  induction calls as [|[p1 r1] rest IH]; intros m resp n p r p' r' Hg Hn Hn';
    [destruct n; discriminate|].
  destruct Hg as [_ Hrest].
  destruct r1 as [nr|e].
  2: { subst rest. destruct n; discriminate. }
  destruct n as [|n]; cbn in Hn, Hn'.
  - injection Hn as <- <-.
    destruct rest as [|[p2 r2] rest]; [discriminate|].
    cbn in Hn'. injection Hn' as <- <-.
    destruct Hrest as [[rs [Hlen Hm]] _].
    exists nr, rs. auto.
  - apply (IH _ _ _ _ _ _ _ Hrest Hn Hn').
Qed.

Lemma conversation_step query calls n p r p' r' :
  conversation query calls ->
  nth_error calls n = Some (p, r) ->
  nth_error calls (S n) = Some (p', r') ->
  exists nr rs,
    r = Returned nr /\
    List.length rs = List.length (tool_use_blocks (resp_content nr)) /\
    p_messages p' = p_messages p ++ round_turns nr rs.
Proof.
  destruct calls as [|[p0 r0] rest]; [intros []|].
  intros [_ Hrest] Hn Hn'.
  destruct r0 as [resp|e].
  2: { subst rest. destruct n; discriminate. }
  destruct n as [|n]; cbn in Hn, Hn'.
  - injection Hn as <- <-.
    destruct rest as [|[p2 r2] rest]; [discriminate|].
    cbn in Hn'. injection Hn' as <- <-.
    destruct Hrest as [[rs [Hlen Hm]] _].
    exists resp, rs. auto.
  - apply (grows_step _ _ _ _ _ _ _ _ Hrest Hn Hn').
Qed.

Lemma pairs_snoc {A : Type} (x : list A) n :
  List.concat (repeat x n) ++ x = x ++ List.concat (repeat x n).
Proof.
  induction n as [|n IH]; cbn.
  - rewrite app_nil_r. reflexivity.
  - rewrite <- app_assoc, IH. reflexivity.
Qed.

Lemma alternating_pairs n :
  alternating "assistant" "user" (List.concat (repeat ["assistant"; "user"] n)) = true.
Proof. induction n as [|n IH]; [reflexivity | exact IH]. Qed.

Lemma conversation_roles query calls : forall n p r,
  conversation query calls ->
  nth_error calls n = Some (p, r) ->
  (forall j pj resp,
      j < n -> nth_error calls j = Some (pj, Returned resp) ->
      tool_use_blocks (resp_content resp) <> []) ->
  map role (p_messages p) = "user" :: List.concat (repeat ["assistant"; "user"] n).
Proof.
  induction n as [|n IH]; intros p r Hc Hn Hinv.
  - destruct calls as [|[p0 r0] rest]; [destruct Hc|].
    cbn in Hn. injection Hn as <- <-. destruct Hc as [-> _]. reflexivity.
  - destruct (nth_error calls n) as [[pn rn]|] eqn:En.
    2: { apply nth_error_None in En.
         assert (nth_error calls (S n) = None) by (apply nth_error_None; lia).
         congruence. }
    destruct (conversation_step query calls n pn rn p r Hc En Hn)
      as [nr [rs [-> [Hlen Hm]]]].
    assert (Hne : tool_use_blocks (resp_content nr) <> [])
      by (apply (Hinv n pn nr); [lia | exact En]).
    rewrite Hm, map_app, (IH pn (Returned nr) Hc eq_refl).
    2: { intros j pj resp Hj. apply Hinv. lia. }
    unfold round_turns. destruct rs as [|e es].
    { destruct (tool_use_blocks (resp_content nr)); [contradiction|discriminate]. }
    cbn [map role app]. rewrite pairs_snoc. reflexivity.
Qed.

Lemma query_conversation query hist tools tmo w :
  conversation query
    (endpoint_calls (snd (generate_response self query hist tools tmo w))).
Proof.
  rewrite generate_response_eq.
  destruct (client_create self (first_params self query hist tools) w)
    as [[resp|e] w1].
  2: { cbn. split; [|reflexivity]. unfold first_params.
       destruct tools as [[|d ds]|]; reflexivity. }
  assert (Hm : p_messages (first_params self query hist tools) = [user_turn query])
    by (unfold first_params; destruct tools as [[|d ds]|]; reflexivity).
  destruct (String.eqb (stop_reason resp) "tool_use"), tmo as [tm|],
    tools as [[|d ds]|]; try (cbn; split; [exact Hm | exact I]).
  pose proof (loop_conversation_grows self tm (system_content self hist) (d :: ds)
                1 resp [user_turn query] w1) as Hloop.
  destruct (_continue_tool_loop self resp [user_turn query]
              (system_content self hist) (d :: ds) tm 1 w1) as [[res w'] t'].
  cbn [fst snd after app endpoint_calls conversation] in *.
  split; [exact Hm|]. rewrite Hm. exact Hloop.
Qed.

(** C5, as amended.  The first endpoint call is sent the single user
    turn holding the query.  From one endpoint call to the next the
    message list only grows at its end (the earlier list is a strict
    prefix of the later one, so no past turn is changed): by the
    assistant turn holding the blocks of the response just received and
    then, when that response has at least one tool-use block, by one
    user turn holding all the results of the round.  When every earlier
    response has at least one tool-use block, call number [n] (from 0)
    is sent exactly [1 + 2 n] messages whose roles alternate, starting
    with ["user"]. *)
Theorem conversation_is_append_only
    (query : string) (hist : option string) (tools : option (list dict))
    (tmo : option (ToolManager World)) (w : World) :
  (exists p0 r0 rest,
      endpoint_calls (snd (generate_response self query hist tools tmo w))
        = (p0, r0) :: rest /\
      p_messages p0 = [mkMessage "user" (QueryText query)]) /\
  (forall n p r p' r',
      nth_error
        (endpoint_calls (snd (generate_response self query hist tools tmo w))) n
        = Some (p, r) ->
      nth_error
        (endpoint_calls (snd (generate_response self query hist tools tmo w)))
        (S n) = Some (p', r') ->
      strict_prefix (p_messages p) (p_messages p') /\
      exists resp rs,
        r = Returned resp /\
        List.length rs = List.length (tool_use_blocks (resp_content resp)) /\
        p_messages p' = p_messages p ++ round_turns resp rs) /\
  (forall n p r,
      nth_error
        (endpoint_calls (snd (generate_response self query hist tools tmo w))) n
        = Some (p, r) ->
      (forall j pj resp,
          j < n ->
          nth_error
            (endpoint_calls (snd (generate_response self query hist tools tmo w)))
            j = Some (pj, Returned resp) ->
          tool_use_blocks (resp_content resp) <> []) ->
      List.length (p_messages p) = 1 + 2 * n /\
      alternating "user" "assistant" (map role (p_messages p)) = true).
Proof.
  pose proof (query_conversation query hist tools tmo w) as Hc.
  set (calls := endpoint_calls
                  (snd (generate_response self query hist tools tmo w))) in *.
  split; [|split].
  - destruct calls as [|[p0 r0] rest]; [destruct Hc|].
    exists p0, r0, rest. split; [reflexivity | apply Hc].
  - intros n p r p' r' Hn Hn'.
    destruct (conversation_step query calls n p r p' r' Hc Hn Hn')
      as [nr [rs [Hr [Hlen Hm]]]].
    split.
    + exists (round_turns nr rs). split; [discriminate | exact Hm].
    + exists nr, rs. auto.
  - intros n p r Hn Hinv.
    pose proof (conversation_roles query calls n p r Hc Hn Hinv) as Hroles.
    split.
    + rewrite <- (length_map role), Hroles. cbn [List.length].
      assert (Hsum : forall k,
                 List.length (List.concat (repeat ["assistant"; "user"] k))
                 = 2 * k).
      { induction k as [|k IHk]; [reflexivity|].
        cbn [repeat List.concat app List.length]. rewrite IHk. lia. }
      rewrite Hsum. lia.
    + rewrite Hroles. cbn [alternating]. apply alternating_pairs.
Qed.

End QueryProperties.

(** ** Properties of the tool registry *)

Section RegistryProperties.

Import ToolRegistry.

Lemma string_app_assoc (a b c : string) :
  String.append (String.append a b) c = String.append a (String.append b c).
Proof. induction a as [|x a IH]; cbn; [reflexivity | rewrite IH; reflexivity]. Qed.

Lemma string_app_nil (a : string) : String.append a "" = a.
Proof. induction a as [|x a IH]; cbn; [reflexivity | rewrite IH; reflexivity]. Qed.

(** C8.  Dispatching a name that is not registered returns (it does
    not raise) a text that contains ["not found"], and leaves the
    registry as it was; dispatching a registered name gives what the
    [execute] of that tool gives, its text unchanged. *)
Theorem unknown_tool_is_reported (name : string) (args : dict) (reg : Registry) :
  (lookup name reg = None ->
   contains "not found" (not_found_message name) /\
   dispatch name args reg = (Returned (not_found_message name), reg)) /\
  (forall tool,
      lookup name reg = Some tool ->
      fst (dispatch name args reg) = outcome_map fst (execute tool args)).
Proof.
  split.
  - intros Hnone. split.
    + exists (String.append "tool '" (String.append name "' ")), "".
      unfold not_found_message.
      rewrite string_app_nil, !string_app_assoc. reflexivity.
    + unfold dispatch. rewrite Hnone. reflexivity.
  - intros tool Hsome. unfold dispatch. rewrite Hsome.
    destruct (execute tool args) as [[text cs]|e]; reflexivity.
Qed.

Lemma reset_clears (reg : Registry) :
  flat_map retained (reset_citations reg) = [].
Proof. induction reg as [|t reg IH]; [reflexivity | exact IH]. Qed.

(** C9.  After [drain_citations()] and then [reset_citations()], a
    further [drain_citations()], with no tool executed in between,
    returns the empty list: the reset cleared the retained citations of
    every registered tool. *)
Theorem drain_after_reset_is_empty (reg : Registry) :
  fst (drain_citations (reset_citations (snd (drain_citations reg)))) = [] /\
  Forall (fun t => retained t = [])
         (reset_citations (snd (drain_citations reg))).
Proof.
  cbn [drain_citations fst snd]. split; [apply reset_clears|].
  induction reg as [|t reg IH]; constructor; [reflexivity | exact IH].
Qed.

End RegistryProperties.

(** ** The statements on the scripted world *)

Section Scenarios.

Import Scripted.

(** C3, counterexample.  The first response has no tool-use block, but
    its stop indicator is ["tool_use"] and tools are supplied: the loop
    is entered, a second endpoint call is made and its text is the
    answer. *)
Lemma first_response_claim_fails : ~ first_response_claim.
Proof.
  intros H.
  pose proof (H World generator "Q" None (Some search_tools) (Some tool_manager)
                announced_only
                ([Returned (text_answer "Final")], [])
                (mkResponse [TextBlock "Let me look"] "tool_use")
                eq_refl (or_introl eq_refl)) as Habs.
  vm_compute in Habs. discriminate Habs.
Qed.

(** C5, counterexample.  After a round without tool-use block no user
    turn is appended: the third endpoint call is sent the roles user,
    assistant, assistant, user. *)
Lemma message_sequence_claim_fails : ~ message_sequence_claim.
Proof.
  intros H.
  pose proof (H World generator "Q" None (Some search_tools) (Some tool_manager)
                empty_first_round) as Habs.
  vm_compute in Habs.
  destruct Habs as [_ [Halt _]].
  specialize (Halt 2 _ _ eq_refl). discriminate Halt.
Qed.

(** The statements with a hypothesis, at the inputs of the test-suite. *)

Lemma direct_answer_witness :
  AIGenerator.generate_response generator "What is X?" None None None
    ([Returned (text_answer "X is a thing.")], [])
  = (Returned "X is a thing.", ([], []),
     [CreateCall (first_params generator "What is X?" None None)
                 (Returned (text_answer "X is a thing."))]).
Proof.
  apply (direct_answer generator "What is X?" None None None
           ([Returned (text_answer "X is a thing.")], []) ([], [])
           (text_answer "X is a thing.")).
  - reflexivity.
  - left. reflexivity.
Defined.

Lemma results_follow_their_invocations_witness :
  exists rs te p r rest,
    snd (AIGenerator._continue_tool_loop generator (tool_use "tool_xyz" "X")
           [user_turn "Q"] "PROMPT" search_tools tool_manager 1
           ([Returned (text_answer "Answer")], [Returned "two items"]))
      = te ++ CreateCall p r :: rest /\
    nth_error (p_messages p) 2 = Some (mkMessage "user" (ToolResults rs)) /\
    map tool_use_id rs = ["tool_xyz"].
Proof.
  destruct (results_follow_their_invocations generator tool_manager "PROMPT"
              search_tools (tool_use "tool_xyz" "X") [user_turn "Q"] 1
              ([Returned (text_answer "Answer")], [Returned "two items"]))
    as [rs [te [w1 [p [r [rest [_ [Htrace [_ [Hm [Hids _]]]]]]]]]]].
  - cbn. discriminate.
  - exists rs, te, p, r, rest.
    split; [exact Htrace|]. split; [rewrite Hm; reflexivity | exact Hids].
Defined.

Lemma round_without_invocations_witness :
  exists p rest,
    snd (AIGenerator._continue_tool_loop generator
           (mkResponse [TextBlock "Let me look"] "tool_use")
           [user_turn "Q"] "PROMPT" search_tools tool_manager 1
           ([Returned (text_answer "Final")], []))
      = CreateCall p (Returned (text_answer "Final")) :: rest /\
    p_messages p =
      [user_turn "Q"; mkMessage "assistant" (Blocks [TextBlock "Let me look"])].
Proof.
  destruct (round_without_invocations generator tool_manager "PROMPT"
              search_tools (mkResponse [TextBlock "Let me look"] "tool_use")
              [user_turn "Q"] 1 ([Returned (text_answer "Final")], []))
    as [p [rest [_ [Htrace Hm]]]].
  - reflexivity.
  - exists p, rest. split; [exact Htrace | exact Hm].
Defined.

Lemma endpoint_fault_propagates_witness :
  fst (fst (AIGenerator.generate_response generator "Test query" None None None
              ([Raised (mkException "API Error: Rate limited")], [])))
  = Raised (mkException "API Error: Rate limited").
Proof.
  apply (endpoint_fault_propagates generator "Test query" None None None
           ([Raised (mkException "API Error: Rate limited")], [])
           (first_params generator "Test query" None None)
           (mkException "API Error: Rate limited")).
  left. reflexivity.
Defined.

Lemma unknown_tool_is_reported_witness :
  ToolRegistry.dispatch "unknown_tool" [("query", "test")] []
  = (Returned "tool 'unknown_tool' not found", []).
Proof.
  apply (unknown_tool_is_reported "unknown_tool" [("query", "test")] []).
  reflexivity.
Defined.

End Scenarios.

(** ** Further invariants of the rounds *)

Section RoundInvariants.

Import AIGenerator.

Local Arguments Nat.sub : simpl never.

Context {World : Type}.
Variable self : AIGenerator.t World.
Variable tm : ToolManager World.
Variable system : string.
Variable tools : list dict.

Lemma tool_calls_app t1 t2 :
  tool_calls (t1 ++ t2) = tool_calls t1 ++ tool_calls t2.
Proof.
  induction t1 as [|[p r|n i r] t1 IH]; cbn; rewrite ?IH; reflexivity.
Qed.

Lemma round_params_fixed messages depth he :
  fixed_params self system (round_params self messages system tools depth he) /\
  tools_key tools (round_params self messages system tools depth he).
Proof.
  unfold round_params, fixed_params, tools_key.
  destruct (allow_more_tools depth he); cbn; auto 10.
Qed.

Lemma loop_calls_fixed depth resp messages w :
  Forall (fun c => fixed_params self system (fst c) /\ tools_key tools (fst c))
    (endpoint_calls
       (snd (_continue_tool_loop self resp messages system tools tm depth w))).
Proof.
  apply (continue_tool_loop_rounds self tm system tools
           (fun _ _ _ _ x =>
              Forall (fun c => fixed_params self system (fst c)
                               /\ tools_key tools (fst c))
                     (endpoint_calls (snd x))));
    clear depth resp messages w.
  - intros depth resp messages w outs w1 r w2 _ _ _ _.
    cbn [fst snd]. rewrite endpoint_calls_app. unfold round_trace.
    rewrite round_events_no_endpoint_call. cbn.
    constructor; [apply round_params_fixed | constructor].
  - intros depth resp messages w outs w1 nr w2 _ _ _ _ _ _ IH.
    destruct (_continue_tool_loop self nr (next_messages messages resp outs)
                system tools tm (depth + 1) w2) as [[res w'] t'].
    cbn [fst snd after] in *. rewrite !endpoint_calls_app. unfold round_trace.
    rewrite round_events_no_endpoint_call. cbn.
    constructor; [apply round_params_fixed | exact IH].
Qed.

Lemma loop_continued_by_request depth resp messages w :
  continued_by_request tools
    (endpoint_calls
       (snd (_continue_tool_loop self resp messages system tools tm depth w))).
Proof.
  apply (continue_tool_loop_rounds self tm system tools
           (fun _ _ _ _ x => continued_by_request tools (endpoint_calls (snd x))));
    clear depth resp messages w.
  - intros depth resp messages w outs w1 r w2 _ _ _ _.
    cbn [fst snd]. rewrite endpoint_calls_app. unfold round_trace.
    rewrite round_events_no_endpoint_call. cbn.
    intros [|n] p r0 c' Hn Hn'; cbn in Hn'; [discriminate|].
    destruct n; discriminate.
  - intros depth resp messages w outs w1 nr w2 _ _ _ Hstop Hd Hne IH.
    destruct (_continue_tool_loop self nr (next_messages messages resp outs)
                system tools tm (depth + 1) w2) as [[res w'] t'].
    cbn [fst snd after] in *. rewrite !endpoint_calls_app. unfold round_trace.
    rewrite round_events_no_endpoint_call. cbn [app endpoint_calls].
    intros [|n] p r c' Hn Hn'.
    + cbn in Hn. injection Hn as <- <-. split.
      * apply round_params_allowed. apply allow_more_tools_iff. auto.
      * exists nr. auto.
    + apply (IH n p r c' Hn Hn').
Qed.

Lemma loop_ends_with_last_call depth resp messages w :
  ends_with_last_call
    (_continue_tool_loop self resp messages system tools tm depth w).
Proof.
  apply (continue_tool_loop_rounds self tm system tools
           (fun _ _ _ _ x => ends_with_last_call x));
    clear depth resp messages w.
  - intros depth resp messages w outs w1 r w2 _ _ _ _.
    exists (round_trace resp outs),
           (next_params self system tools messages resp outs depth), r.
    split; reflexivity.
  - intros depth resp messages w outs w1 nr w2 _ _ _ _ _ _ IH.
    destruct (_continue_tool_loop self nr (next_messages messages resp outs)
                system tools tm (depth + 1) w2) as [[res w'] t'].
    destruct IH as [t0 [p [r [Ht Hres]]]]. cbn [fst snd after] in *.
    exists ((round_trace resp outs
               ++ [CreateCall
                     (next_params self system tools messages resp outs depth)
                     (Returned nr)]) ++ t0), p, r.
    split; [rewrite Ht, app_assoc; reflexivity | exact Hres].
Qed.

Lemma round_trace_no_endpoint_call resp outs :
  endpoint_calls (round_trace resp outs) = [].
Proof. apply round_events_no_endpoint_call. Qed.

Lemma round_trace_executed resp outs :
  List.length outs = List.length (tool_use_blocks (resp_content resp)) ->
  executed (round_trace resp outs) = requested resp.
Proof. intros Hlen. apply round_events_tool_calls. exact Hlen. Qed.

Lemma loop_executes_the_requests depth resp messages w :
  executes_the_requests resp
    (_continue_tool_loop self resp messages system tools tm depth w).
Proof.
  apply (continue_tool_loop_rounds self tm system tools
           (fun _ resp _ _ x => executes_the_requests resp x));
    clear depth resp messages w.
  - intros depth resp messages w outs w1 r w2 Hlen _ _ _.
    unfold executes_the_requests, executed. cbn [fst snd].
    rewrite endpoint_calls_app, tool_calls_app, round_trace_no_endpoint_call.
    cbn [app endpoint_calls tool_calls map snd removelast flat_map].
    split; [discriminate|]. rewrite !app_nil_r.
    apply round_trace_executed. exact Hlen.
  - intros depth resp messages w outs w1 nr w2 Hlen _ _ _ _ _ IH.
    destruct (_continue_tool_loop self nr (next_messages messages resp outs)
                system tools tm (depth + 1) w2) as [[res w'] t'].
    unfold executes_the_requests, executed in *. cbn [fst snd after] in *.
    destruct IH as [Hne IH].
    rewrite !endpoint_calls_app, !tool_calls_app, round_trace_no_endpoint_call.
    cbn [app endpoint_calls tool_calls].
    split; [discriminate|].
    rewrite app_nil_r, map_app, IH.
    fold (executed (round_trace resp outs)).
    rewrite round_trace_executed by exact Hlen.
    cbn [map snd].
    destruct (map snd (endpoint_calls t')) as [|o os] eqn:E.
    { destruct (endpoint_calls t'); [contradiction | discriminate]. }
    reflexivity.
Qed.

Lemma raised_in_member t : forall n i e,
  In (ExecuteCall n i (Raised e)) t -> raised_in t = true.
Proof.
  induction t as [|ev t IH]; intros n i e H; [destruct H|].
  destruct H as [->|H]; [reflexivity|].
  destruct ev as [p r|n' i' [x|e']]; cbn; eauto.
Qed.

Lemma loop_fault_ends_the_rounds depth resp messages w :
  fault_ends_the_rounds
    (snd (_continue_tool_loop self resp messages system tools tm depth w)).
Proof.
  apply (continue_tool_loop_rounds self tm system tools
           (fun _ _ _ _ x => fault_ends_the_rounds (snd x)));
    clear depth resp messages w.
  - intros depth resp messages w outs w1 r w2 Hlen _ _ _.
    cbn [fst snd]. intros t1 n i e t2 Hsplit.
    apply app_eq_app in Hsplit. destruct Hsplit as [l [[Hte Hl]|[Ht1 Hl]]].
    + destruct l as [|x l]; [discriminate|].
      cbn in Hl. injection Hl as <- Ht2. subst t2.
      assert (Hnone : endpoint_calls l = []).
      { pose proof (round_trace_no_endpoint_call resp outs) as Hn.
        rewrite Hte, endpoint_calls_app in Hn. cbn in Hn.
        apply app_eq_nil in Hn. apply Hn. }
      assert (Hraised : existsb raised outs = true).
      { unfold round_trace in Hte.
        rewrite <- (raised_in_round_events _ _ Hlen), Hte.
        apply (raised_in_member _ n i e). apply in_or_app. right. left.
        reflexivity. }
      exists (next_params self system tools messages resp outs depth), r.
      rewrite endpoint_calls_app, Hnone. split; [reflexivity|].
      apply round_params_refused. unfold allow_more_tools.
      rewrite Hraised. apply andb_false_r.
    + destruct l as [|x l]; [discriminate|].
      cbn in Hl. injection Hl as _ Hl. destruct l; discriminate.
  - intros depth resp messages w outs w1 nr w2 Hlen _ _ _ _ Hne IH.
    destruct (_continue_tool_loop self nr (next_messages messages resp outs)
                system tools tm (depth + 1) w2) as [[res w'] t'].
    cbn [fst snd after] in *. intros t1 n i e t2 Hsplit.
    apply app_eq_app in Hsplit. destruct Hsplit as [l [[Hte Hl]|[Ht1 Hl]]].
    + destruct l as [|x l].
      * cbn in Hl. apply (IH [] n i e t2). symmetry. exact Hl.
      * exfalso. cbn in Hl. injection Hl as <- _.
        assert (Hin : In (ExecuteCall n i (Raised e))
                         (round_trace resp outs
                            ++ [CreateCall
                                  (next_params self system tools messages resp
                                               outs depth) (Returned nr)])).
        { rewrite Hte. apply in_or_app. right. left. reflexivity. }
        apply in_app_or in Hin. destruct Hin as [Hin|[Hin|[]]]; [|discriminate].
        apply raised_in_member in Hin. unfold round_trace in Hin.
        rewrite (raised_in_round_events _ _ Hlen) in Hin. congruence.
    + apply (IH l n i e t2). exact Hl.
Qed.

End RoundInvariants.

(** ** Further properties of a query *)

Section QueryInvariants.

Import AIGenerator.

Local Arguments Nat.sub : simpl never.

Context {World : Type}.
Variable self : AIGenerator.t World.

Lemma first_params_fixed query hist tools :
  fixed_params self (system_content self hist)
               (first_params self query hist tools).
Proof.
  unfold first_params, fixed_params.
  destruct tools as [[|d ds]|]; cbn; auto.
Qed.

(** X1.  Every endpoint call of a query carries the model name of the
    generator, temperature 0, 800 output tokens at most, and the same
    system text: the prompt alone when the history is absent or empty,
    the prompt followed by the history block otherwise. *)
Theorem every_call_has_fixed_params
    (query : string) (hist : option string) (tools : option (list dict))
    (tmo : option (ToolManager World)) (w : World) :
  Forall (fun c =>
            p_model (fst c) = model self /\
            p_temperature (fst c) = 0 /\
            p_max_tokens (fst c) = 800 /\
            p_system (fst c) = system_content self hist)
         (endpoint_calls (snd (generate_response self query hist tools tmo w))) /\
  system_content self None = SYSTEM_PROMPT self /\
  system_content self (Some "") = SYSTEM_PROMPT self.
Proof.
  split; [|split; reflexivity].
  rewrite generate_response_eq.
  pose proof (first_params_fixed query hist tools) as H0.
  destruct (client_create self (first_params self query hist tools) w)
    as [[resp|e] w1];
    [|cbn [fst snd endpoint_calls]; constructor; [exact H0 | constructor]].
  destruct (String.eqb (stop_reason resp) "tool_use"), tmo as [tm|],
    tools as [[|d ds]|];
    try (cbn [fst snd endpoint_calls]; constructor; [exact H0 | constructor]).
  pose proof (loop_calls_fixed self tm (system_content self hist) (d :: ds)
                1 resp [user_turn query] w1) as Hloop.
  destruct (_continue_tool_loop self resp [user_turn query]
              (system_content self hist) (d :: ds) tm 1 w1) as [[res w'] t'].
  cbn [fst snd after app endpoint_calls] in *.
  constructor; [apply H0|].
  eapply Forall_impl; [|exact Hloop]. intros c [Hc _]. exact Hc.
Qed.

(** X2.  In every endpoint call of a query the keys [tools] and
    [tool_choice] go together: both are absent, or [tools] is the
    non-empty list the caller gave and [tool_choice] is
    [{"type": "auto"}]. *)
Theorem tools_and_choice_go_together
    (query : string) (hist : option string) (tools : option (list dict))
    (tmo : option (ToolManager World)) (w : World) :
  Forall (fun c =>
            (p_tools (fst c) = None /\ p_tool_choice (fst c) = None) \/
            (truthy_list tools = true /\
             p_tools (fst c) = tools /\
             p_tool_choice (fst c) = Some [("type", "auto")]))
         (endpoint_calls (snd (generate_response self query hist tools tmo w))).
Proof.
  rewrite generate_response_eq.
  assert (H0 : (p_tools (first_params self query hist tools) = None /\
                p_tool_choice (first_params self query hist tools) = None) \/
               (truthy_list tools = true /\
                p_tools (first_params self query hist tools) = tools /\
                p_tool_choice (first_params self query hist tools)
                  = Some [("type", "auto")])).
  { unfold first_params. destruct tools as [[|d ds]|]; cbn; auto. }
  destruct (client_create self (first_params self query hist tools) w)
    as [[resp|e] w1];
    [|cbn [fst snd endpoint_calls]; constructor; [exact H0 | constructor]].
  destruct (String.eqb (stop_reason resp) "tool_use"), tmo as [tm|],
    tools as [[|d ds]|];
    try (cbn [fst snd endpoint_calls]; constructor; [exact H0 | constructor]).
  pose proof (loop_calls_fixed self tm (system_content self hist) (d :: ds)
                1 resp [user_turn query] w1) as Hloop.
  destruct (_continue_tool_loop self resp [user_turn query]
              (system_content self hist) (d :: ds) tm 1 w1) as [[res w'] t'].
  cbn [fst snd after app endpoint_calls] in *.
  constructor; [exact H0|].
  eapply Forall_impl; [|exact Hloop].
  intros c [_ [Hc|[Ht Hc]]]; [left; exact Hc | right; auto].
Qed.

(** X3.  An endpoint call is followed by another one only if tool
    schemas and a tool manager were supplied, the call offered the
    schemas, and its response came back with stop indicator
    ["tool_use"]. *)
Theorem calls_continue_only_on_request
    (query : string) (hist : option string) (tools : option (list dict))
    (tmo : option (ToolManager World)) (w : World)
    (n : nat) (p : api_params) (r : outcome response)
    (c' : api_params * outcome response) :
  nth_error (endpoint_calls (snd (generate_response self query hist tools tmo w)))
            n = Some (p, r) ->
  nth_error (endpoint_calls (snd (generate_response self query hist tools tmo w)))
            (S n) = Some c' ->
  truthy_list tools = true /\
  tmo <> None /\
  p_tools p = tools /\
  exists resp, r = Returned resp /\ stop_reason resp = "tool_use".
Proof.
  rewrite generate_response_eq.
  destruct (client_create self (first_params self query hist tools) w)
    as [[resp|e] w1];
    [|cbn [fst snd endpoint_calls]; intros _ Hn'; destruct n; discriminate].
  destruct (String.eqb (stop_reason resp) "tool_use") eqn:Hstop,
    tmo as [tm|], tools as [[|d ds]|];
    try (cbn [fst snd endpoint_calls]; intros _ Hn'; destruct n; discriminate).
  pose proof (loop_continued_by_request self tm (system_content self hist)
                (d :: ds) 1 resp [user_turn query] w1) as Hloop.
  destruct (_continue_tool_loop self resp [user_turn query]
              (system_content self hist) (d :: ds) tm 1 w1) as [[res w'] t'].
  cbn [fst snd after app endpoint_calls] in *.
  destruct n as [|n]; intros Hn Hn'.
  - cbn in Hn. injection Hn as <- <-.
    split; [reflexivity|]. split; [discriminate|]. split; [reflexivity|].
    exists resp. split; [reflexivity | apply String.eqb_eq; exact Hstop].
  - destruct (Hloop n p r c' Hn Hn') as [Ht Hr].
    split; [reflexivity|]. split; [discriminate|]. split; assumption.
Qed.

(** X4.  The last event of every query is an endpoint call, and the
    outcome of the query is the outcome of that call: its exception, or
    the text extracted from its response.  Tool results are thus never
    the answer, and no tool runs after the last endpoint call. *)
Theorem answer_comes_from_last_call
    (query : string) (hist : option string) (tools : option (list dict))
    (tmo : option (ToolManager World)) (w : World) :
  exists t0 p r,
    snd (generate_response self query hist tools tmo w) = t0 ++ [CreateCall p r] /\
    fst (fst (generate_response self query hist tools tmo w))
      = outcome_map _extract_text_response r.
Proof.
  rewrite generate_response_eq.
  destruct (client_create self (first_params self query hist tools) w)
    as [[resp|e] w1].
  2: { exists [], (first_params self query hist tools), (Raised e).
       split; reflexivity. }
  destruct (String.eqb (stop_reason resp) "tool_use"), tmo as [tm|],
    tools as [[|d ds]|];
    try (match goal with
         | |- context [first_params self query hist ?ts] =>
             exists [], (first_params self query hist ts), (Returned resp)
         end; split; reflexivity).
  pose proof (loop_ends_with_last_call self tm (system_content self hist)
                (d :: ds) 1 resp [user_turn query] w1) as [t0 [p [r [Ht Hr]]]].
  destruct (_continue_tool_loop self resp [user_turn query]
              (system_content self hist) (d :: ds) tm 1 w1) as [[res w'] t'].
  cbn [fst snd after] in *.
  exists ([CreateCall (first_params self query hist (Some (d :: ds)))
                      (Returned resp)] ++ t0), p, r.
  split; [rewrite Ht, app_assoc; reflexivity | exact Hr].
Qed.

(** X5.  The tools executed during a query are exactly the tool-use
    blocks of the responses to every endpoint call but the last, in
    order, name and input unchanged: each such block is executed once,
    and the blocks of the last response are never executed. *)
Theorem executions_are_the_requests
    (query : string) (hist : option string) (tools : option (list dict))
    (tmo : option (ToolManager World)) (w : World) :
  executed (snd (generate_response self query hist tools tmo w)) =
  flat_map requested_by
    (removelast
       (map snd
          (endpoint_calls (snd (generate_response self query hist tools tmo w))))).
Proof.
  rewrite generate_response_eq.
  destruct (client_create self (first_params self query hist tools) w)
    as [[resp|e] w1]; [|reflexivity].
  destruct (String.eqb (stop_reason resp) "tool_use"), tmo as [tm|],
    tools as [[|d ds]|]; try reflexivity.
  pose proof (loop_executes_the_requests self tm (system_content self hist)
                (d :: ds) 1 resp [user_turn query] w1) as [Hne Hloop].
  destruct (_continue_tool_loop self resp [user_turn query]
              (system_content self hist) (d :: ds) tm 1 w1) as [[res w'] t'].
  cbn [fst snd after app endpoint_calls map] in *.
  unfold executed in *. cbn [tool_calls]. rewrite Hloop.
  destruct (map snd (endpoint_calls t')) as [|o os] eqn:E.
  { destruct (endpoint_calls t'); [contradiction | discriminate]. }
  reflexivity.
Qed.

End QueryInvariants.

Section QueryBounds.

Import AIGenerator.

Local Arguments Nat.sub : simpl never.

Context {World : Type}.
Variable self : AIGenerator.t World.

Lemma round_turns_length resp rs :
  1 <= List.length (round_turns resp rs) <= 2.
Proof. unfold round_turns. destruct rs; cbn; lia. Qed.

Lemma conversation_length query calls : forall n p r,
  conversation query calls ->
  nth_error calls n = Some (p, r) ->
  1 + n <= List.length (p_messages p) <= 1 + 2 * n.
Proof.
  induction n as [|n IH]; intros p r Hc Hn.
  - destruct calls as [|[p0 r0] rest]; [destruct Hc|].
    cbn in Hn. injection Hn as <- <-. destruct Hc as [-> _]. cbn. lia.
  - destruct (nth_error calls n) as [[pn rn]|] eqn:En.
    2: { apply nth_error_None in En.
         assert (nth_error calls (S n) = None) by (apply nth_error_None; lia).
         congruence. }
    destruct (conversation_step query calls n pn rn p r Hc En Hn)
      as [nr [rs [_ [_ Hm]]]].
    pose proof (IH pn rn Hc eq_refl) as Hprev.
    pose proof (round_turns_length nr rs) as Hturns.
    rewrite Hm, length_app. lia.
Qed.

Lemma query_call_count query hist tools tmo w :
  List.length
    (endpoint_calls (snd (generate_response self query hist tools tmo w)))
  <= S MAX_TOOL_ROUNDS.
Proof.
  rewrite generate_response_eq.
  destruct (client_create self (first_params self query hist tools) w)
    as [[resp|e] w1]; [|cbn; lia].
  destruct (String.eqb (stop_reason resp) "tool_use"), tmo as [tm|],
    tools as [[|d ds]|]; try (cbn; lia).
  pose proof (loop_within_budget self tm (system_content self hist) (d :: ds)
                1 resp [user_turn query] w1) as [H1 _].
  destruct (_continue_tool_loop self resp [user_turn query]
              (system_content self hist) (d :: ds) tm 1 w1) as [[res w'] t'].
  cbn [fst snd after app endpoint_calls List.length] in *.
  unfold MAX_TOOL_ROUNDS in *. change (2 - 1) with 1 in H1. lia.
Qed.

(** X6.  The endpoint call number [n] of a query (from 0) is sent at
    least [1 + n] and at most [1 + 2 n] messages; as [n] is at most
    [MAX_TOOL_ROUNDS], no endpoint call is ever sent more than 5
    messages. *)
Theorem message_count_bounds
    (query : string) (hist : option string) (tools : option (list dict))
    (tmo : option (ToolManager World)) (w : World)
    (n : nat) (p : api_params) (r : outcome response) :
  nth_error (endpoint_calls (snd (generate_response self query hist tools tmo w)))
            n = Some (p, r) ->
  n <= MAX_TOOL_ROUNDS /\
  1 + n <= List.length (p_messages p) <= 1 + 2 * n /\
  List.length (p_messages p) <= 5.
Proof.
  intros Hn.
  assert (Hle : n <= MAX_TOOL_ROUNDS).
  { pose proof (query_call_count query hist tools tmo w) as Hcount.
    assert (Hlt : n < List.length
                        (endpoint_calls
                           (snd (generate_response self query hist tools tmo w))))
      by (apply nth_error_Some; congruence).
    lia. }
  pose proof (conversation_length query _ n p r
                (query_conversation self query hist tools tmo w) Hn) as Hlen.
  unfold MAX_TOOL_ROUNDS in *. repeat split; lia.
Qed.

(** X8.  After a tool execution that raised, the rest of the query
    holds exactly one endpoint call, and that call has neither [tools]
    nor [tool_choice]: a tool fault is always reported to the model
    once, and never followed by another round. *)
Theorem tool_fault_allows_one_more_call
    (query : string) (hist : option string) (tools : option (list dict))
    (tmo : option (ToolManager World)) (w : World)
    (t1 t2 : trace) (n : string) (i : dict) (e : Exception) :
  snd (generate_response self query hist tools tmo w)
    = t1 ++ ExecuteCall n i (Raised e) :: t2 ->
  exists p r,
    endpoint_calls t2 = [(p, r)] /\ p_tools p = None /\ p_tool_choice p = None.
Proof.
  rewrite generate_response_eq.
  assert (Hsingle : forall c, [c] = t1 ++ ExecuteCall n i (Raised e) :: t2 ->
                              c = ExecuteCall n i (Raised e) /\ t1 = []).
  { intros c H. destruct t1 as [|x t1]; cbn in H.
    - injection H as -> _. auto.
    - injection H as _ H. destruct t1; discriminate. }
  destruct (client_create self (first_params self query hist tools) w)
    as [[resp|e0] w1].
  2: { cbn [snd]. intros H. apply Hsingle in H. destruct H; discriminate. }
  destruct (String.eqb (stop_reason resp) "tool_use"), tmo as [tm|],
    tools as [[|d ds]|];
    try (cbn [snd]; intros H; apply Hsingle in H; destruct H; discriminate).
  pose proof (loop_fault_ends_the_rounds self tm (system_content self hist)
                (d :: ds) 1 resp [user_turn query] w1) as Hloop.
  destruct (_continue_tool_loop self resp [user_turn query]
              (system_content self hist) (d :: ds) tm 1 w1) as [[res w'] t'].
  cbn [fst snd after app] in *. intros Hsplit.
  destruct t1 as [|x t1]; [discriminate|].
  cbn in Hsplit. injection Hsplit as _ Hsplit.
  apply (Hloop t1 n i e t2 Hsplit).
Qed.

(** X7.  [_extract_text_response] on two lists of blocks put end to
    end: the answer is found in the first list when it holds a text
    block, and in the second one otherwise.  Blocks that follow a text
    block never change the answer. *)
Theorem extract_text_of_app (bs1 bs2 : list content_block) (stop : string) :
  _extract_text_response (mkResponse (bs1 ++ bs2) stop) =
  if existsb is_text_block bs1
  then _extract_text_response (mkResponse bs1 stop)
  else _extract_text_response (mkResponse bs2 stop).
Proof.
  unfold _extract_text_response. cbn [resp_content].
  induction bs1 as [|b bs1 IH]; [reflexivity|].
  destruct b; cbn; auto.
Qed.

End QueryBounds.

(** ** Properties of the HTTP handlers *)

Section AppProperties.

Import TestApp.

Context {World : Type}.
Variable rag : RagSystem World.
Variable citation_error : source_dict -> Exception.
Variable stats_error : analytics_value -> analytics_value -> Exception.

Lemma make_citations_refused srcs : forall e,
  make_citations citation_error srcs = Raised e ->
  exists src,
    In src srcs /\ e = citation_error src /\
    (forall t, get "text" src <> Some (Some t)).
Proof.
  induction srcs as [|s srcs IH]; intros e H; [discriminate|].
  cbn in H. unfold make_citation in H at 1.
  destruct (get "text" s) as [[t|]|] eqn:Et.
  - destruct (make_citations citation_error srcs) as [cs|e'] eqn:E;
      [discriminate|].
    injection H as <-. destruct (IH e' eq_refl) as [src [Hin Hsrc]].
    exists src. split; [right; exact Hin | exact Hsrc].
  - injection H as <-. exists s. split; [left; reflexivity|].
    split; [reflexivity|]. intros t. rewrite Et. discriminate.
  - injection H as <-. exists s. split; [left; reflexivity|].
    split; [reflexivity|]. intros t. rewrite Et. discriminate.
Qed.

Lemma make_citations_accepted srcs : forall cs,
  make_citations citation_error srcs = Returned cs ->
  List.length cs = List.length srcs /\
  forall k src,
    nth_error srcs k = Some src ->
    exists t,
      get "text" src = Some (Some t) /\
      nth_error cs k =
        Some (mkSourceCitation t
                match get "url" src with
                | Some (Some u) => Some u
                | _ => None
                end).
Proof.
  induction srcs as [|s srcs IH]; intros cs H.
  - injection H as <-. split; [reflexivity|].
    intros [|k] src Hk; discriminate.
  - cbn in H. unfold make_citation in H at 1.
    destruct (get "text" s) as [[t|]|] eqn:Et; try discriminate.
    destruct (make_citations citation_error srcs) as [cs'|e'] eqn:E;
      [|discriminate].
    injection H as <-. destruct (IH cs' eq_refl) as [Hlen Hnth].
    split; [cbn; rewrite Hlen; reflexivity|].
    intros [|k] src Hk; cbn in Hk.
    + injection Hk as <-. exists t. split; [exact Et | reflexivity].
    + apply (Hnth k src Hk).
Qed.

(** X9.  A request that carries a non-empty session id: no session is
    created, the RAG system is queried once, with the query and that
    id, and a successful reply carries the same id. *)
Theorem provided_session_is_used
    (request : QueryRequest) (w : World) (c : ascii) (s : string) :
  session_id request = Some (String c s) ->
  exists r w1,
    rag_query rag (query request) (String c s) w = (r, w1) /\
    query_documents citation_error rag request w
      = (fst (fst (query_documents citation_error rag request w)), w1,
         [Query (query request) (String c s) r]) /\
    forall body,
      fst (fst (query_documents citation_error rag request w)) = Ok body ->
      response_session_id body = String c s.
Proof.
  intros Hsid. unfold query_documents, or_500, bind, ret, lift, ask.
  rewrite Hsid.
  destruct (rag_query rag (query request) (String c s) w)
    as [[[a srcs]|e] w1] eqn:Eq.
  - exists (Returned (a, srcs)), w1.
    destruct (make_citations citation_error srcs) as [cs|e]; cbn;
      (split; [reflexivity|]); (split; [reflexivity|]);
      intros body H; [injection H as <-; reflexivity | discriminate].
  - exists (Raised e), w1. cbn. split; [reflexivity|]. split; [reflexivity|].
    intros body H. discriminate.
Qed.

(** X10.  A request whose session id is absent or empty: a session is
    created first.  When that fails the reply is a 500 carrying the
    text of the exception and the RAG system is not queried; otherwise
    the RAG system is queried once with the new id, and a successful
    reply carries that id. *)
Theorem missing_session_is_created (request : QueryRequest) (w : World) :
  truthy_str (session_id request) = false ->
  exists r w1,
    create_session rag w = (r, w1) /\
    match r with
    | Raised e =>
        query_documents citation_error rag request w
          = (HTTPException 500 (exn_str e), w1, [CreateSession (Raised e)])
    | Returned sid =>
        exists r2 w2,
          rag_query rag (query request) sid w1 = (r2, w2) /\
          query_documents citation_error rag request w
            = (fst (fst (query_documents citation_error rag request w)), w2,
               [CreateSession (Returned sid); Query (query request) sid r2]) /\
          forall body,
            fst (fst (query_documents citation_error rag request w)) = Ok body ->
            response_session_id body = sid
    end.
Proof.
  intros Hsid.
  assert (Hnew :
    match session_id request with
    | Some (String c s) => ret World (String c s)
    | _ => new_session rag
    end = new_session rag).
  { destruct (session_id request) as [[|c s]|];
      [reflexivity | discriminate | reflexivity]. }
  unfold query_documents. rewrite Hnew. clear Hnew.
  unfold or_500, bind, ret, lift, ask, new_session.
  destruct (create_session rag w) as [[sid|e] w1] eqn:Ec.
  - exists (Returned sid), w1. split; [reflexivity|].
    destruct (rag_query rag (query request) sid w1) as [[[a srcs]|e] w2] eqn:Eq.
    + exists (Returned (a, srcs)), w2. split; [reflexivity|].
      destruct (make_citations citation_error srcs) as [cs|e]; cbn;
        (split; [reflexivity|]);
        intros body H; [injection H as <-; reflexivity | discriminate].
    + exists (Raised e), w2. cbn. split; [reflexivity|]. split; [reflexivity|].
      intros body H. discriminate.
  - exists (Raised e), w1. split; reflexivity.
Qed.

(** X11.  When [query_documents] fails the status is always 500, and
    the detail is the text of the exception that one of the calls made
    raised, or of the error of a returned source that
    [SourceCitation] refuses (one without a [text] string). *)
Theorem query_failure_is_500
    (request : QueryRequest) (w : World) (code : nat) (detail : string) :
  fst (fst (query_documents citation_error rag request w))
    = HTTPException code detail ->
  code = 500 /\
  ((exists e,
       In (CreateSession (Raised e))
          (snd (query_documents citation_error rag request w)) /\
       detail = exn_str e) \/
   (exists sid e,
       In (Query (query request) sid (Raised e))
          (snd (query_documents citation_error rag request w)) /\
       detail = exn_str e) \/
   (exists sid a srcs src,
       In (Query (query request) sid (Returned (a, srcs)))
          (snd (query_documents citation_error rag request w)) /\
       In src srcs /\
       (forall t, get "text" src <> Some (Some t)) /\
       detail = exn_str (citation_error src))).
Proof.
  unfold query_documents.
  set (first := match session_id request with
                | Some (String c s) => ret World (String c s)
                | _ => new_session rag
                end).
  assert (Hfirst : forall e w1 t, first w = (Raised e, w1, t) ->
                                  t = [CreateSession (Raised e)]).
  { subst first. intros e w1 t.
    destruct (session_id request) as [[|c s]|]; unfold ret, new_session;
      try discriminate;
      destruct (create_session rag w) as [r0 w0]; intros H;
      injection H as -> _ <-; reflexivity. }
  unfold or_500, bind, ret, lift, ask.
  destruct (first w) as [[[sid|e] w1] t1] eqn:Ef.
  - destruct (rag_query rag (query request) sid w1) as [[[a srcs]|e] w2] eqn:Eq.
    + destruct (make_citations citation_error srcs) as [cs|e] eqn:Ec; cbn;
        intros H; [discriminate|].
      injection H as <- <-. split; [reflexivity|]. right. right.
      destruct (make_citations_refused srcs e Ec) as [src [Hin [-> Hno]]].
      exists sid, a, srcs, src.
      split; [apply in_or_app; right; left; reflexivity|]. auto.
    + cbn. intros H. injection H as <- <-. split; [reflexivity|].
      right. left. exists sid, e.
      split; [apply in_or_app; right; left; reflexivity | reflexivity].
  - cbn. intros H. injection H as <- <-. split; [reflexivity|].
    left. exists e. rewrite (Hfirst e w1 t1 eq_refl).
    split; [left; reflexivity | reflexivity].
Qed.

(** X12.  A successful reply of [query_documents] carries the answer
    the RAG system returned and one citation per returned source, in
    the same order: the [text] of the source, and its [url] when it is
    a string, [None] when it is absent or [None].  Every returned
    source then has a [text] string: one source without it fails the
    whole reply. *)
Theorem sources_are_converted_in_order
    (request : QueryRequest) (w : World) (body : QueryResponse) :
  fst (fst (query_documents citation_error rag request w)) = Ok body ->
  exists srcs,
    In (Query (query request) (response_session_id body)
              (Returned (answer body, srcs)))
       (snd (query_documents citation_error rag request w)) /\
    List.length (sources body) = List.length srcs /\
    forall k src,
      nth_error srcs k = Some src ->
      exists t,
        get "text" src = Some (Some t) /\
        nth_error (sources body) k =
          Some (mkSourceCitation t
                  match get "url" src with
                  | Some (Some u) => Some u
                  | _ => None
                  end).
Proof.
  unfold query_documents.
  set (first := match session_id request with
                | Some (String c s) => ret World (String c s)
                | _ => new_session rag
                end).
  unfold or_500, bind, ret, lift, ask.
  destruct (first w) as [[[sid|e] w1] t1]; [|discriminate].
  destruct (rag_query rag (query request) sid w1) as [[[a srcs]|e] w2];
    [|discriminate].
  destruct (make_citations citation_error srcs) as [cs|e] eqn:Ec;
    [|discriminate].
  cbn. intros H. injection H as <-. cbn.
  exists srcs. split; [apply in_or_app; right; left; reflexivity|].
  apply make_citations_accepted. exact Ec.
Qed.

(** X13.  [get_course_stats] asks the RAG system for its analytics
    exactly once.  An exception of that call gives a 500 with its text;
    a dict without ["total_courses"] gives a 500 whose detail is
    ['total_courses'] (also when ["course_titles"] is missing too); one
    with it but without ["course_titles"] gives ['course_titles']; a
    dict with an integer and a list of titles gives a 200 with these
    two values; any other dict gives a 500 with the validation error. *)
Theorem course_stats_reply (w : World) :
  exists r w1,
    get_course_analytics rag w = (r, w1) /\
    snd (get_course_stats stats_error rag w) = [GetCourseAnalytics r] /\
    snd (fst (get_course_stats stats_error rag w)) = w1 /\
    fst (fst (get_course_stats stats_error rag w)) =
      match r with
      | Raised e => HTTPException 500 (exn_str e)
      | Returned d =>
          match get "total_courses" d, get "course_titles" d with
          | None, _ => HTTPException 500 "'total_courses'"
          | Some _, None => HTTPException 500 "'course_titles'"
          | Some (AInt n), Some (ATitles titles) => Ok (mkCourseStats n titles)
          | Some a, Some b => HTTPException 500 (exn_str (stats_error a b))
          end
      end.
Proof.
  unfold get_course_stats, or_500, bind, lift, getitem, make_stats,
    analytics_of.
  destruct (get_course_analytics rag w) as [[d|e] w1].
  - exists (Returned d), w1. split; [reflexivity|].
    destruct (get "total_courses" d) as [[n|l]|],
             (get "course_titles" d) as [[n'|l']|]; cbn; auto.
  - exists (Raised e), w1. cbn. auto.
Qed.

End AppProperties.

(** ** The further statements with a hypothesis, at the inputs of the
    test-suite *)

Section FurtherScenarios.

Import Scripted.

Lemma calls_continue_only_on_request_witness :
  truthy_list (Some search_tools) = true /\
  Some tool_manager <> None /\
  p_tools (first_params generator "Q" None (Some search_tools))
    = Some search_tools /\
  exists resp,
    Returned (tool_use "t1" "a") = Returned resp /\
    stop_reason resp = "tool_use".
Proof.
  eapply (calls_continue_only_on_request generator "Q" None (Some search_tools)
            (Some tool_manager) two_rounds 0); reflexivity.
Defined.

Lemma message_count_bounds_witness :
  exists p r,
    nth_error (endpoint_calls (snd (run two_rounds))) 2 = Some (p, r) /\
    3 <= List.length (p_messages p) <= 5.
Proof.
  do 2 eexists. split; [reflexivity|].
  destruct (message_count_bounds generator "Q" None (Some search_tools)
              (Some tool_manager) two_rounds 2 _ _ eq_refl) as [_ [H _]].
  exact H.
Defined.

Lemma tool_fault_allows_one_more_call_witness :
  exists p r,
    endpoint_calls (skipn 2 (snd (run failing_tool))) = [(p, r)] /\
    p_tools p = None /\ p_tool_choice p = None.
Proof.
  apply (tool_fault_allows_one_more_call generator "Q" None (Some search_tools)
           (Some tool_manager) failing_tool
           (firstn 1 (snd (run failing_tool)))
           (skipn 2 (snd (run failing_tool)))
           "search_course_content" [("query", "test")]
           (mkException "Tool failed!")).
  reflexivity.
Defined.

Import TestApp MockRag.

Lemma provided_session_is_used_witness :
  snd (query_documents citation_error mock_rag_system
         (mkQueryRequest "Follow up question" (Some "existing-session")) tt)
  = [Query "Follow up question" "existing-session"
       (Returned ("This is a test response about the course.",
                  [[("text", Some "Test Course - Lesson 1");
                    ("url", Some "https://example.com/lesson1")]]))].
Proof.
  destruct (provided_session_is_used mock_rag_system citation_error
              (mkQueryRequest "Follow up question" (Some "existing-session"))
              tt "e" "xisting-session" eq_refl) as [r [w1 [Hq [Hqd _]]]].
  injection Hq as <- <-. rewrite Hqd. reflexivity.
Defined.

Lemma missing_session_is_created_witness :
  snd (query_documents citation_error mock_rag_system
         (mkQueryRequest "New question" None) tt)
  = [CreateSession (Returned "new-session-id");
     Query "New question" "new-session-id"
       (Returned ("This is a test response about the course.",
                  [[("text", Some "Test Course - Lesson 1");
                    ("url", Some "https://example.com/lesson1")]]))].
Proof.
  destruct (missing_session_is_created mock_rag_system citation_error
              (mkQueryRequest "New question" None) tt eq_refl)
    as [r [w1 [Hc Hm]]].
  injection Hc as <- <-.
  destruct Hm as [r2 [w2 [Hq [Hqd _]]]].
  injection Hq as <- <-. rewrite Hqd. reflexivity.
Defined.

Lemma query_failure_is_500_witness :
  500 = 500 /\
  ((exists e,
       In (CreateSession (Raised e))
          (snd (query_documents citation_error failing_rag_system
                  (mkQueryRequest "What is this?" None) tt)) /\
       "Database error" = exn_str e) \/
   (exists sid e,
       In (Query "What is this?" sid (Raised e))
          (snd (query_documents citation_error failing_rag_system
                  (mkQueryRequest "What is this?" None) tt)) /\
       "Database error" = exn_str e) \/
   (exists sid a srcs src,
       In (Query "What is this?" sid (Returned (a, srcs)))
          (snd (query_documents citation_error failing_rag_system
                  (mkQueryRequest "What is this?" None) tt)) /\
       In src srcs /\
       (forall t, get "text" src <> Some (Some t)) /\
       "Database error" = exn_str (citation_error src))).
Proof.
  apply (query_failure_is_500 failing_rag_system citation_error
           (mkQueryRequest "What is this?" None) tt 500 "Database error").
  reflexivity.
Defined.

Lemma sources_are_converted_in_order_witness :
  exists srcs,
    In (Query "What is tool use?" "new-session-id"
              (Returned ("This is a test response about the course.", srcs)))
       (snd (query_documents citation_error mock_rag_system
               (mkQueryRequest "What is tool use?" None) tt)) /\
    1 = List.length srcs.
Proof.
  destruct (sources_are_converted_in_order mock_rag_system citation_error
              (mkQueryRequest "What is tool use?" None) tt
              (mkQueryResponse "This is a test response about the course."
                 [mkSourceCitation "Test Course - Lesson 1"
                                   (Some "https://example.com/lesson1")]
                 "new-session-id")
              eq_refl) as [srcs [Hin [Hlen _]]].
  exists srcs. split; [exact Hin | exact Hlen].
Defined.

End FurtherScenarios.
